(** * colorama's ANSI-to-Win32 stream translator (thirdlib/colorama)

    A shallow embedding of [ansitowin32.py], of the parts of [winterm.py],
    [win32.py] and [ansi.py] it calls, and the properties of the translator
    stated over that embedding.

    Text is a list of one-byte characters.  The wrapped destination and the
    native console are external objects: the model records every request the
    translator makes to them.  Python exceptions are values of [exn]; an
    operation returns its outcome together with the world it leaves behind,
    so that whatever was written before an exception stays written. *)

From Stdlib Require Import ZArith Ascii String List Bool Lia DecimalString.
From Stdlib Require Import DecimalFacts DecimalPos DecimalN.
From stdpp Require Import base option list strings gmap.

Local Open Scope Z_scope.

(** ** Text *)

Definition str := list ascii.

Definition py (s : string) : str := list_ascii_of_string s.

Definition ESC : ascii := ascii_of_nat 27.      (* '\033' *)
Definition BEL : ascii := ascii_of_nat 7.       (* '\x07', '\007' *)
Definition LF : ascii := ascii_of_nat 10.       (* '\n' *)
Definition ch_lbracket : ascii := "["%char.
Definition ch_rbracket : ascii := "]"%char.
Definition ch_m : ascii := "m"%char.
Definition ch_semi : ascii := ";"%char.

Definition ascii_eqb (a b : ascii) : bool := Ascii.eqb a b.

(** [text[a:b]] for non-negative [a] and [b]: Python clamps both ends. *)
Definition slice (text : str) (a b : nat) : str := take (b - a)%nat (drop a text).

(** ['0' <= c <= '9'] *)
Definition is_digit (c : ascii) : bool :=
  let n := nat_of_ascii c in (48 <=? n)%nat && (n <=? 57)%nat.

(** [p.isdigit()] for a text without the superscript digits: non-empty and
    ASCII digits only.  (Of the characters below 256, [str.isdigit] accepts
    the superscripts two, three and one as well: see [int_reads].) *)
Definition isdigit (p : str) : bool :=
  match p with
  | [] => false
  | _ => forallb is_digit p
  end.

(** [int(p)] for a string of ASCII digits that [int] converts: CPython
    refuses a longer string than its limit with [ValueError] (see
    [int_reads]). *)
Definition int_of_digits (p : str) : Z :=
  fold_left (fun acc c => 10 * acc + (Z.of_nat (nat_of_ascii c) - 48)) p 0.

(** [s.split(sep)] for a one-character separator: always at least one field. *)
Fixpoint split (sep : ascii) (s : str) : list str :=
  match s with
  | [] => [[]]
  | c :: s' =>
      if ascii_eqb c sep then [] :: split sep s'
      else match split sep s' with
           | [] => [[c]]
           | f :: fs => (c :: f) :: fs
           end
  end.

(** [s.startswith(p)] *)
Fixpoint startswith (p s : str) : bool :=
  match p, s with
  | [], _ => true
  | _ :: _, [] => false
  | a :: p', b :: s' => ascii_eqb a b && startswith p' s'
  end.

(** [needle in hay] on strings: substring membership. *)
Fixpoint str_in (needle hay : str) : bool :=
  startswith needle hay ||
  match hay with
  | [] => false
  | _ :: hay' => str_in needle hay'
  end.

(** [str(n)] for a non-negative integer. *)
Definition str_of_Z (n : Z) : str :=
  py (NilZero.string_of_uint (N.to_uint (Z.to_N n))).

(** [str(n)] for any integer, as string concatenation and an f-string
    render it. *)
Definition str_of_int (n : Z) : str :=
  if n <? 0 then "-"%char :: str_of_Z (- n) else str_of_Z n.

(** The characters below 256 that [str.isdigit] accepts beside the ASCII
    digits, and that [int] refuses with [ValueError]: the superscripts two,
    three and one (chr 178, 179 and 185). *)
Definition is_superscript_digit (c : ascii) : bool :=
  let n := nat_of_ascii c in
  (n =? 178)%nat || (n =? 179)%nat || (n =? 185)%nat.

(** The longest digit string that [int] converts under CPython's default
    limit (sys.int_info.default_max_str_digits, from 3.11 on); [int] raises
    [ValueError] for a longer one. *)
Definition default_max_str_digits : nat := 4300.

(** The parameter strings whose fields [int] reads wherever [isdigit] lets
    it try: no superscript digit, and no field longer than the limit.  On
    these [isdigit] and [int_of_digits] are [str.isdigit] and [int]; on the
    others the list comprehension of [handle_ansi_sequence] can raise
    [ValueError], which is not modelled. *)
Definition int_reads (paramstring : str) : bool :=
  forallb (fun c => negb (is_superscript_digit c)) paramstring &&
  forallb (fun p => (length p <=? default_max_str_digits)%nat)
          (split ch_semi paramstring).

(** ** Regular expressions of the translator *)

(** One result of [finditer]: [span()] and [groups()]. *)
Record re_match := ReMatch {
  m_start : nat;
  m_end : nat;
  m_groups : list str
}.

(** A pattern is given by its matcher at the head of the remaining text:
    the groups and the length of the match, if the pattern matches there. *)
Definition matcher := str -> option (list str * nat).

(** [[0-9;]] *)
Definition is_param_char (c : ascii) : bool := is_digit c || ascii_eqb c ch_semi.

(** The longest prefix of characters satisfying [p], and what follows it. *)
Fixpoint span_while (p : ascii -> bool) (s : str) : str * str :=
  match s with
  | [] => ([], [])
  | c :: s' =>
      if p c then let '(a, b) := span_while p s' in (c :: a, b)
      else ([], s)
  end.

(** [ANSI_CSI_RE]: ESC, an opening bracket, one group holding a greedy run of
    characters from [0-9;], then the letter m.  The class never contains m,
    so the only candidate for the group is its longest run. *)
Definition ANSI_CSI_RE : matcher := fun s =>
  match s with
  | c0 :: c1 :: rest =>
      if ascii_eqb c0 ESC && ascii_eqb c1 ch_lbracket then
        let '(params, after) := span_while is_param_char rest in
        match after with
        | c :: _ => if ascii_eqb c ch_m then Some ([params], 3 + length params)%nat
                    else None
        | [] => None
        end
      else None
  | _ => None
  end.

(** The lazy payload group followed by the BEL group: the payload runs up to
    the first BEL; the dot does not match a newline, so a newline before
    that BEL rules the match out. *)
Fixpoint until_bel (s : str) : option str :=
  match s with
  | [] => None
  | c :: s' =>
      if ascii_eqb c BEL then Some []
      else if ascii_eqb c LF then None
      else match until_bel s' with
           | Some p => Some (c :: p)
           | None => None
           end
  end.

(** [ANSI_OSC_RE]: ESC, a closing bracket, the lazy payload group, and BEL
    as the second group. *)
Definition ANSI_OSC_RE : matcher := fun s =>
  match s with
  | c0 :: c1 :: rest =>
      if ascii_eqb c0 ESC && ascii_eqb c1 ch_rbracket then
        match until_bel rest with
        | Some payload => Some ([payload; [BEL]], 3 + length payload)%nat
        | None => None
        end
      else None
  | _ => None
  end.

(** [pattern.finditer(text)]: the non-overlapping matches, left to right.
    [pos] is the index of the head of [s] in the text; [skip] counts the
    characters still covered by the previous match.  Both patterns match at
    least three characters, so no empty match arises. *)
Fixpoint finditer_from (re : matcher) (pos skip : nat) (s : str) : list re_match :=
  match s with
  | [] => []
  | _ :: s' =>
      match skip with
      | S k => finditer_from re (S pos) k s'
      | O =>
          match re s with
          | Some (gs, len) =>
              ReMatch pos (pos + len) gs :: finditer_from re (S pos) (len - 1) s'
          | None => finditer_from re (S pos) 0 s'
          end
      end
  end.

Definition finditer (re : matcher) (text : str) : list re_match :=
  finditer_from re 0 0 text.

(** Does a complete control sequence start somewhere in the text: does one
    of the two patterns match at some position? *)
Fixpoint has_sequence (s : str) : bool :=
  match s with
  | [] => false
  | _ :: s' =>
      bool_decide (is_Some (ANSI_CSI_RE s)) ||
      bool_decide (is_Some (ANSI_OSC_RE s)) ||
      has_sequence s'
  end.

(** ** ansi.py *)

Definition CSI : str := ESC :: py "[".
Definition OSC : str := ESC :: py "]".

(** [code_to_chars(code)]: CSI + str(code) + 'm' *)
Definition code_to_chars (code : Z) : str := CSI ++ str_of_int code ++ py "m".

Module AnsiFore.
Definition BLACK := 30.
Definition RED := 31.
Definition GREEN := 32.
Definition YELLOW := 33.
Definition BLUE := 34.
Definition MAGENTA := 35.
Definition CYAN := 36.
Definition WHITE := 37.
Definition RESET := 39.
End AnsiFore.

Module AnsiBack.
Definition BLACK := 40.
Definition RED := 41.
Definition GREEN := 42.
Definition YELLOW := 43.
Definition BLUE := 44.
Definition MAGENTA := 45.
Definition CYAN := 46.
Definition WHITE := 47.
Definition RESET := 49.
End AnsiBack.

Module AnsiStyle.
Definition BRIGHT := 1.
Definition DIM := 2.
Definition NORMAL := 22.
Definition RESET_ALL := 0.
End AnsiStyle.

(** [Style = AnsiStyle()]: the constructor of [AnsiCodes] replaces every
    integer attribute of the instance by its escape sequence. *)
Module Style.
Definition BRIGHT : str := code_to_chars AnsiStyle.BRIGHT.
Definition DIM : str := code_to_chars AnsiStyle.DIM.
Definition NORMAL : str := code_to_chars AnsiStyle.NORMAL.
Definition RESET_ALL : str := code_to_chars AnsiStyle.RESET_ALL.
End Style.

(** ** winterm.py: constants and the state of a [WinTerm] object *)

Module WinColor.
Definition BLACK := 0.
Definition BLUE := 1.
Definition GREEN := 2.
Definition CYAN := 3.
Definition RED := 4.
Definition MAGENTA := 5.
Definition YELLOW := 6.
Definition GREY := 7.
End WinColor.

Module WinStyle.
Definition NORMAL := 0.               (* 0x00 *)
Definition BRIGHT := 8.               (* 0x08 *)
Definition BRIGHT_BACKGROUND := 128.  (* 0x80 *)
End WinStyle.

Record WinTermState := {
  _default_attrs : Z;
  _fore : Z;
  _back : Z;
  _style : Z;
  _light_mode : Z
}.

(** ** The world outside the translator *)

Inductive exn :=
| AttributeError (obj attr : string)
| IndexError
| TypeError (what : string)
| RuntimeError (msg : string)
| NotModelled (what : string).

(** Requests to kernel32 made through [win32.py]. *)
Inductive native_call :=
| SetConsoleTextAttribute (handle attributes : Z)
| SetConsoleTitle (title : str).

(** Calls on the wrapped destination. *)
Inductive stream_event :=
| Write (data : str)
| Flush.

Record World := {
  winterm : option WinTermState;          (* the module global of ansitowin32 *)
  console : list native_call;             (* requests so far, oldest first *)
  console_accepts : native_call -> bool;  (* the BOOL kernel32 answers *)
  wrapped : list stream_event;            (* calls so far, oldest first *)
  wrapped_closed : option bool;           (* its [closed] attribute, if any *)
  wrapped_isatty : option bool;           (* the answer of its [isatty], if any *)
  wrapped_is_std : bool;                  (* is it sys.__stdout__ or sys.__stderr__ *)
  pycharm_hosted : bool;                  (* 'PYCHARM_HOSTED' in os.environ *)
  os_name_nt : bool;                      (* os.name == 'nt' *)
  winapi_test : bool                      (* the answer of win32.winapi_test() *)
}.

Definition set_winterm (t : option WinTermState) (w : World) : World :=
  {| winterm := t; console := console w; console_accepts := console_accepts w;
     wrapped := wrapped w; wrapped_closed := wrapped_closed w;
     wrapped_isatty := wrapped_isatty w; wrapped_is_std := wrapped_is_std w;
     pycharm_hosted := pycharm_hosted w; os_name_nt := os_name_nt w;
     winapi_test := winapi_test w |}.

Definition add_console (c : native_call) (w : World) : World :=
  {| winterm := winterm w; console := console w ++ [c];
     console_accepts := console_accepts w;
     wrapped := wrapped w; wrapped_closed := wrapped_closed w;
     wrapped_isatty := wrapped_isatty w; wrapped_is_std := wrapped_is_std w;
     pycharm_hosted := pycharm_hosted w; os_name_nt := os_name_nt w;
     winapi_test := winapi_test w |}.

Definition add_wrapped (e : stream_event) (w : World) : World :=
  {| winterm := winterm w; console := console w;
     console_accepts := console_accepts w;
     wrapped := wrapped w ++ [e]; wrapped_closed := wrapped_closed w;
     wrapped_isatty := wrapped_isatty w; wrapped_is_std := wrapped_is_std w;
     pycharm_hosted := pycharm_hosted w; os_name_nt := os_name_nt w;
     winapi_test := winapi_test w |}.

(** The bytes a sequence of stream calls hands to the destination. *)
Fixpoint written (es : list stream_event) : str :=
  match es with
  | [] => []
  | Write d :: es' => d ++ written es'
  | Flush :: es' => written es'
  end.

(** The titles requested from the console, in order. *)
Fixpoint titles (cs : list native_call) : list str :=
  match cs with
  | [] => []
  | SetConsoleTitle t :: cs' => t :: titles cs'
  | SetConsoleTextAttribute _ _ :: cs' => titles cs'
  end.

(** How many times the set-attributes primitive was requested. *)
Fixpoint attribute_calls (cs : list native_call) : nat :=
  match cs with
  | [] => O
  | SetConsoleTextAttribute _ _ :: cs' => S (attribute_calls cs')
  | SetConsoleTitle _ :: cs' => attribute_calls cs'
  end.

(** ** Computations: a result or an exception, and the world left behind *)

Inductive outcome (A : Type) :=
| Returns (a : A)
| Raises (e : exn).
Arguments Returns {A} a.
Arguments Raises {A} e.

Definition M (A : Type) : Type := World -> outcome A * World.

Definition ret {A} (a : A) : M A := fun w => (Returns a, w).
Definition raise {A} (e : exn) : M A := fun w => (Raises e, w).
Definition bind {A B} (m : M A) (k : A -> M B) : M B := fun w =>
  match m w with
  | (Returns a, w') => k a w'
  | (Raises e, w') => (Raises e, w')
  end.
Definition gets {A} (f : World -> A) : M A := fun w => (Returns (f w), w).
Definition modify (f : World -> World) : M unit := fun w => (Returns tt, f w).

Notation "'let*' x ':=' m 'in' k" := (bind m (fun x => k))
  (at level 10, x name, m at level 100, k at level 200).
Notation "m ';;;' k" := (bind m (fun _ => k))
  (at level 100, k at level 200, right associativity).

(** [for x in xs: body x] *)
Fixpoint for_each {A} (xs : list A) (body : A -> M unit) : M unit :=
  match xs with
  | [] => ret tt
  | x :: xs' => body x ;;; for_each xs' body
  end.

(** A loop that carries a local variable from one iteration to the next. *)
Fixpoint for_fold {A S} (xs : list A) (s : S) (body : S -> A -> M S) : M S :=
  match xs with
  | [] => ret s
  | x :: xs' => let* s' := body s x in for_fold xs' s' body
  end.

(** ** win32.py (the definitions made when ctypes is available) *)

Module win32.
Definition STDOUT := -11.
Definition STDERR := -12.

Definition SetConsoleTextAttribute (handle attributes : Z) : M unit :=
  let call := SetConsoleTextAttribute handle attributes in
  modify (add_console call) ;;;
  let* ok := gets (fun w => console_accepts w call) in
  if ok then ret tt else raise (RuntimeError "Failed to set text attributes.").

Definition SetConsoleTitle (title : str) : M unit :=
  let call := SetConsoleTitle title in
  modify (add_console call) ;;;
  let* ok := gets (fun w => console_accepts w call) in
  if ok then ret tt else raise (RuntimeError "Failed to set console title.").
End win32.

(** ** winterm.py: class WinTerm

    The one instance is the module global [winterm] of ansitowin32; a method
    reads and updates it in the world.  Looking an attribute up on [None]
    raises [AttributeError]. *)

Module WinTerm.

(** [winterm.<attr>] evaluated on the global: the object, if there is one. *)
Definition self (attr : string) : M WinTermState :=
  let* o := gets winterm in
  match o with
  | Some t => ret t
  | None => raise (AttributeError "NoneType" attr)
  end.

(** An assignment to fields of the object (there is nothing to assign to
    where the global is [None]; no method runs there). *)
Definition update (f : WinTermState -> WinTermState) : M unit :=
  modify (fun w => set_winterm (f <$> winterm w) w).

Definition _reset_attributes : M unit :=
  update (fun t =>
    {| _default_attrs := _default_attrs t;
       _fore := Z.land (_default_attrs t) 7;
       _back := Z.land (Z.shiftr (_default_attrs t) 4) 7;
       _style := Z.land (_default_attrs t)
                   (Z.lor WinStyle.BRIGHT WinStyle.BRIGHT_BACKGROUND);
       _light_mode := _light_mode t |}).

Definition get_attrs_of (t : WinTermState) : Z :=
  _fore t + _back t * 16 + Z.lor (_style t) (_light_mode t).

Definition get_attrs : M Z :=
  let* t := self "get_attrs" in ret (get_attrs_of t).

Definition set_console_attrs (attrs : option Z) (on_stderr : bool) : M unit :=
  let* attrs :=
    match attrs with
    | None => get_attrs
    | Some a => ret a
    end in
  let handle := if negb on_stderr then win32.STDOUT else win32.STDERR in
  win32.SetConsoleTextAttribute handle attrs.

Definition reset_all (on_stderr : bool) : M unit :=
  _reset_attributes ;;;
  set_console_attrs None on_stderr.

Definition set_foreground (color : Z) (light on_stderr : bool) : M unit :=
  update (fun t =>
    {| _default_attrs := _default_attrs t; _fore := color; _back := _back t;
       _style := _style t;
       _light_mode := if light then WinStyle.BRIGHT else 0 |}) ;;;
  set_console_attrs None on_stderr.

Definition set_background (color : Z) (light on_stderr : bool) : M unit :=
  update (fun t =>
    {| _default_attrs := _default_attrs t; _fore := _fore t; _back := color;
       _style := _style t;
       _light_mode := if light then WinStyle.BRIGHT_BACKGROUND else 0 |}) ;;;
  set_console_attrs None on_stderr.

Definition set_title (title : str) : M unit :=
  win32.SetConsoleTitle title.

(** The methods a dispatch table of integer arguments can hold. *)
Inductive method :=
| m_reset_all
| m_set_foreground
| m_set_background
| m_set_console_attrs.

(** The other names the class and its constructor define. *)
Definition other_attributes : list string :=
  ["__init__"; "_reset_attributes"; "get_attrs"; "move_cursor";
   "clear_screen"; "erase_line"; "set_title"; "display_progress_bar";
   "print_styled"; "animate_spinner"; "_default_attrs"; "_fore"; "_back";
   "_style"; "_light_mode"]%string.

(** [winterm.<name>] for an existing [WinTerm]: a name the class does not
    define raises [AttributeError]. *)
Definition getattr (name : string) : M method :=
  if String.eqb name "reset_all" then ret m_reset_all
  else if String.eqb name "set_foreground" then ret m_set_foreground
  else if String.eqb name "set_background" then ret m_set_background
  else if String.eqb name "set_console_attrs" then ret m_set_console_attrs
  else if existsb (String.eqb name) other_attributes then raise (NotModelled name)
  else raise (AttributeError "WinTerm" name).

Definition truthy (z : Z) : bool := negb (z =? 0).

(** [func( *args )] for a bound method and positional integer arguments;
    parameters left out take the defaults of the signature. *)
Definition invoke (f : method) (args : list Z) : M unit :=
  match f, args with
  | m_reset_all, [] => reset_all false
  | m_reset_all, [s] => reset_all (truthy s)
  | m_set_foreground, [] => set_foreground WinColor.GREY false false
  | m_set_foreground, [c] => set_foreground c false false
  | m_set_foreground, [c; l] => set_foreground c (truthy l) false
  | m_set_foreground, [c; l; s] => set_foreground c (truthy l) (truthy s)
  | m_set_background, [] => set_background WinColor.BLACK false false
  | m_set_background, [c] => set_background c false false
  | m_set_background, [c; l] => set_background c (truthy l) false
  | m_set_background, [c; l; s] => set_background c (truthy l) (truthy s)
  | m_set_console_attrs, [] => set_console_attrs None false
  | m_set_console_attrs, [a] => set_console_attrs (Some a) false
  | m_set_console_attrs, [a; s] => set_console_attrs (Some a) (truthy s)
  | _, _ => raise (TypeError "too many positional arguments")
  end.

End WinTerm.

(** ** ansitowin32.py *)

(** [StreamWrapper]: the two operations the translator asks of its proxy. *)
Module StreamWrapper.

Definition isatty : M bool :=
  let* hosted := gets pycharm_hosted in
  if hosted then gets wrapped_is_std
  else gets (fun w => default false (wrapped_isatty w)).

(** [getattr(self.__wrapped, 'closed', True)] *)
Definition closed : M bool :=
  gets (fun w => default true (wrapped_closed w)).

End StreamWrapper.

Module AnsiToWin32.

(** The attributes of a translator the methods read.  Logging under
    [debug] writes to a log file only and is left out. *)
Record t := {
  convert : bool;
  strip : bool;
  autoreset : bool;
  win32_calls : gmap Z (WinTerm.method * list Z)
}.

Definition wrapped_write (data : str) : M unit := modify (add_wrapped (Write data)).
Definition wrapped_flush : M unit := modify (add_wrapped Flush).

Definition default_conversion : M bool :=
  let* on_windows := gets os_name_nt in
  if negb on_windows then ret false
  else
    let* api := gets winapi_test in
    if negb api then ret false
    else StreamWrapper.isatty.

(** The dictionary display of [get_win32_calls], entry by entry: the key,
    the attribute asked of [winterm], and the arguments kept with it. *)
Definition win32_calls_display : list (Z * string * list Z) :=
  [ (AnsiStyle.RESET_ALL, "reset_all"%string, []);
    (AnsiStyle.BRIGHT, "style"%string, [WinStyle.BRIGHT]);
    (AnsiStyle.DIM, "style"%string, [WinStyle.NORMAL]);
    (AnsiFore.RED, "fore"%string, [WinColor.RED]);
    (AnsiBack.BLUE, "back"%string, [WinColor.BLUE]) ].

Definition get_win32_calls (convert : bool)
  : M (gmap Z (WinTerm.method * list Z)) :=
  let* wt := gets winterm in
  if negb (convert && bool_decide (is_Some wt)) then ret ∅
  else
    for_fold win32_calls_display ∅
      (fun calls '(key, name, args) =>
         let* func := WinTerm.getattr name in
         ret (<[key := (func, args)]> calls)).

Definition __init__ (convert strip : option bool) (autoreset : bool) : M t :=
  let* c :=
    match convert with
    | Some c => ret c
    | None => default_conversion
    end in
  let s := match strip with
           | Some s => s
           | None => negb c
           end in
  let* calls := get_win32_calls c in
  ret {| convert := c; strip := s; autoreset := autoreset;
         win32_calls := calls |}.

Definition write_plain_text (self : t) (text : str) (start end_ : nat) : M unit :=
  if (start <? end_)%nat then
    wrapped_write (slice text start end_) ;;;
    wrapped_flush
  else ret tt.

(** [[int(p) for p in paramstring.split(';') if p.isdigit()]] *)
Definition params_of (paramstring : str) : list Z :=
  map int_of_digits (filter (fun p => isdigit p = true) (split ch_semi paramstring)).

Definition handle_ansi_sequence (self : t) (paramstring : str) : M unit :=
  for_each (params_of paramstring)
    (fun param =>
       match win32_calls self !! param with
       | Some (func, args) => WinTerm.invoke func args
       | None => ret tt
       end).

(** The body of the loop of [convert_osc], for one match: [text] is the
    local variable as the previous iterations left it. *)
Definition convert_osc_match (text : str) (m : re_match) : M str :=
  let text := take (m_start m) text ++ drop (m_end m) text in
  match m_groups m with
  | [paramstring; command] =>
      if decide (command = [BEL]) then
        let params := split ch_semi paramstring in
        match params !! 0%nat with
        | None => raise IndexError
        | Some p0 =>
            if str_in p0 (py "02") then
              WinTerm.self "set_title" ;;;
              match params !! 1%nat with
              | None => raise IndexError
              | Some title => WinTerm.set_title title ;;; ret text
              end
            else ret text
        end
      else ret text
  | _ => raise (TypeError "cannot unpack the groups")
  end.

(** The matches are those of the text as it was passed in; each is cut
    out, by its own indices, of the text as it is by then. *)
Definition convert_osc (self : t) (text : str) : M str :=
  for_fold (finditer ANSI_OSC_RE text) text convert_osc_match.

(** The body of the loop of [process_text], for one match. *)
Definition process_match (self : t) (text : str) (cursor : nat) (m : re_match)
  : M nat :=
  write_plain_text self text cursor (m_start m) ;;;
  match m_groups m with
  | [paramstring] => handle_ansi_sequence self paramstring
  | _ => raise (TypeError "handle_ansi_sequence: wrong number of arguments")
  end ;;;
  ret (m_end m).

Definition process_text (self : t) (text : str) : M unit :=
  let* text := convert_osc self text in
  let* cursor :=
    for_fold (finditer ANSI_CSI_RE text) 0%nat (process_match self text) in
  write_plain_text self text cursor (length text).

Definition reset_all (self : t) : M unit :=
  if convert self then handle_ansi_sequence self (py "0")
  else
    if negb (strip self) then
      let* closed := StreamWrapper.closed in
      if negb closed then wrapped_write Style.RESET_ALL else ret tt
    else ret tt.

Definition write (self : t) (text : str) : M unit :=
  (if strip self || convert self then process_text self text
   else wrapped_write text) ;;;
  if autoreset self then reset_all self else ret tt.

End AnsiToWin32.

(** A translator with the given attributes. *)
Definition translator (convert strip autoreset : bool)
    (calls : gmap Z (WinTerm.method * list Z)) : AnsiToWin32.t :=
  {| AnsiToWin32.convert := convert; AnsiToWin32.strip := strip;
     AnsiToWin32.autoreset := autoreset; AnsiToWin32.win32_calls := calls |}.

(** The three ways a translator treats control sequences. *)
Inductive Mode := Convert | Strip | Passthrough.

Definition mode_of (self : AnsiToWin32.t) : Mode :=
  if AnsiToWin32.convert self then Convert
  else if AnsiToWin32.strip self then Strip
  else Passthrough.

(** Does the character occur in the text? *)
Definition contains (c : ascii) (s : str) : bool := existsb (ascii_eqb c) s.

(** The world once [text] has gone to the destination: a bare [write] when
    the translator passes text through, a [write] and a [flush] when it
    scans the text (nothing at all for an empty text). *)
Definition forwarded (self : AnsiToWin32.t) (text : str) (w : World) : World :=
  if AnsiToWin32.strip self || AnsiToWin32.convert self then
    match text with
    | [] => w
    | _ => add_wrapped Flush (add_wrapped (Write text) w)
    end
  else add_wrapped (Write text) w.

(** The reset sequence that [write] appends under [autoreset], if any. *)
Definition reset_suffix (self : AnsiToWin32.t) (w : World) : str :=
  match mode_of self with
  | Passthrough =>
      if AnsiToWin32.autoreset self && negb (default true (wrapped_closed w))
      then Style.RESET_ALL else []
  | _ => []
  end.

(** What both patterns share: a match starts at an ESC and needs its
    terminator [c] in the text that follows. *)
Definition anchored (re : matcher) (c : ascii) : Prop :=
  forall s gs len, re s = Some (gs, len) ->
    (exists s', s = ESC :: s') /\ contains c s = true.

(** The bytes a computation hands to the destination when run in [w]. *)
Definition emitted {A} (c : M A) (w : World) : str :=
  written (drop (length (wrapped w)) (wrapped (snd (c w)))).

(** Does a field end where [s] begins: at the end of the text or at a
    separator? *)
Definition field_boundary (sep : ascii) (s : str) : bool :=
  match s with
  | [] => true
  | c :: _ => ascii_eqb c sep
  end.

(** Is the destination interactive, as [StreamWrapper.isatty] answers? *)
Definition interactive (w : World) : bool :=
  match fst (StreamWrapper.isatty w) with
  | Returns b => b
  | Raises _ => false
  end.

(** The resolution of Auto in the words of the specification: Convert if
    the platform lacks native ANSI support, the console API is available
    and the destination is interactive; otherwise Strip if the destination
    is not interactive, else Passthrough. *)
Definition spec_auto_mode (lacks_ansi api_available is_interactive : bool) : Mode :=
  if lacks_ansi && api_available && is_interactive then Convert
  else if negb is_interactive then Strip
  else Passthrough.

(** The parameters of a token that the dispatch table knows. *)
Definition recognized (self : AnsiToWin32.t) (paramstring : str) : list Z :=
  filter (fun p => is_Some (AnsiToWin32.win32_calls self !! p))
         (AnsiToWin32.params_of paramstring).

(** How many positional arguments a method takes. *)
Definition arity (f : WinTerm.method) : nat :=
  match f with
  | WinTerm.m_reset_all => 1
  | WinTerm.m_set_foreground => 3
  | WinTerm.m_set_background => 3
  | WinTerm.m_set_console_attrs => 2
  end.

(** Every entry of the table can be called with the arguments it keeps. *)
Definition callable (calls : gmap Z (WinTerm.method * list Z)) : Prop :=
  forall key f args, calls !! key = Some (f, args) -> (length args <= arity f)%nat.

(** What a translator in Strip mode, without [autoreset], hands to the
    destination for the text [s]. *)
Definition stripped (w : World) (s : str) : str :=
  emitted (AnsiToWin32.write (translator false true false ∅) s) w.

(** [w'] differs from [w] at most in the console: its log and the state of
    the [WinTerm] object. *)
Definition native_step (w w' : World) : Prop :=
  wrapped w' = wrapped w /\
  wrapped_closed w' = wrapped_closed w /\
  console_accepts w' = console_accepts w /\
  titles (console w') = titles (console w) /\
  (is_Some (winterm w') <-> is_Some (winterm w)).

(** A pattern whose matches are not empty and lie within the text. *)
Definition bounded (re : matcher) : Prop :=
  forall s gs len, re s = Some (gs, len) -> (0 < len <= length s)%nat.

(** Matches in order, one after the other, between [c] and [n]. *)
Fixpoint spaced (c n : nat) (ms : list re_match) : Prop :=
  match ms with
  | [] => True
  | m :: ms' =>
      (c <= m_start m)%nat /\ (m_start m < m_end m)%nat /\ (m_end m <= n)%nat /\
      spaced (m_end m) n ms'
  end.

(** The number of characters the matches cover. *)
Fixpoint covered (ms : list re_match) : nat :=
  match ms with
  | [] => O
  | m :: ms' => (m_end m - m_start m + covered ms')%nat
  end.

(** ** ansi.py: the sequence builders *)

(** The result of a builder that checks its argument. *)
Inductive checked (A : Type) :=
| Valid (a : A)
| ValueError (msg : string).
Arguments Valid {A} a.
Arguments ValueError {A} msg.

Module ansi.

(** [set_title(title)] for a string: OSC, the kind 2, the title, BEL. *)
Definition set_title (title : str) : str :=
  OSC ++ py "2;" ++ title ++ [BEL].

Definition valid_mode (mode : Z) : bool :=
  (mode =? 0) || (mode =? 1) || (mode =? 2).

Definition clear_screen (mode : Z) : checked str :=
  if negb (valid_mode mode) then ValueError "Mode must be 0, 1, or 2."
  else Valid (CSI ++ str_of_int mode ++ py "J").

Definition clear_line (mode : Z) : checked str :=
  if negb (valid_mode mode) then ValueError "Mode must be 0, 1, or 2."
  else Valid (CSI ++ str_of_int mode ++ py "K").

End ansi.

Module AnsiCursor.
Definition up (n : Z) : str := CSI ++ str_of_int n ++ py "A".
Definition down (n : Z) : str := CSI ++ str_of_int n ++ py "B".
Definition forward (n : Z) : str := CSI ++ str_of_int n ++ py "C".
Definition back (n : Z) : str := CSI ++ str_of_int n ++ py "D".
Definition position (x y : Z) : str :=
  CSI ++ str_of_int y ++ py ";" ++ str_of_int x ++ py "H".
End AnsiCursor.

(** ** Texts made of plain pieces and SGR sequences *)

Inductive piece :=
| Plain (s : str)
| Sgr (params : str).

(** A plain piece holds no ESC; the parameters of a sequence are digits and
    semicolons. *)
Definition piece_shape (p : piece) : bool :=
  match p with
  | Plain s => negb (contains ESC s)
  | Sgr params => forallb is_param_char params
  end.

(** A piece of that shape whose parameters, if it has any, [int] reads. *)
Definition piece_ok (p : piece) : bool :=
  piece_shape p &&
  match p with
  | Plain _ => true
  | Sgr params => int_reads params
  end.

Definition render_piece (p : piece) : str :=
  match p with
  | Plain s => s
  | Sgr params => CSI ++ params ++ [ch_m]
  end.

Fixpoint render (ps : list piece) : str :=
  match ps with
  | [] => []
  | p :: ps' => render_piece p ++ render ps'
  end.

(** The plain pieces alone, in order. *)
Fixpoint plains (ps : list piece) : str :=
  match ps with
  | [] => []
  | Plain s :: ps' => s ++ plains ps'
  | Sgr _ :: ps' => plains ps'
  end.

(** The calls a scan makes on the destination: a [write] of a non-empty
    chunk, each followed by a [flush]. *)
Fixpoint flushed_writes (chunks : list str) : list stream_event :=
  match chunks with
  | [] => []
  | d :: chunks' => Write d :: Flush :: flushed_writes chunks'
  end.

(** The decimal value of a numeral read from the left, after [acc]. *)
Fixpoint uint_value (d : Decimal.uint) (acc : N) : N :=
  match d with
  | Decimal.Nil => acc
  | Decimal.D0 d => uint_value d (10 * acc)
  | Decimal.D1 d => uint_value d (1 + 10 * acc)
  | Decimal.D2 d => uint_value d (2 + 10 * acc)
  | Decimal.D3 d => uint_value d (3 + 10 * acc)
  | Decimal.D4 d => uint_value d (4 + 10 * acc)
  | Decimal.D5 d => uint_value d (5 + 10 * acc)
  | Decimal.D6 d => uint_value d (6 + 10 * acc)
  | Decimal.D7 d => uint_value d (7 + 10 * acc)
  | Decimal.D8 d => uint_value d (8 + 10 * acc)
  | Decimal.D9 d => uint_value d (9 + 10 * acc)
  end%N.

(** The light flag of a [WinTerm] is one of the three values its methods
    assign. *)
Definition light_mode_ok (t : WinTermState) : Prop :=
  _light_mode t = 0 \/ _light_mode t = WinStyle.BRIGHT \/
  _light_mode t = WinStyle.BRIGHT_BACKGROUND.

(** From [w] to [w'] the console object, if there is one, keeps the
    default attributes it captured, and keeps its light flag among the
    values the methods assign. *)
Definition keeps_defaults (w w' : World) : Prop :=
  match winterm w, winterm w' with
  | Some t, Some t' =>
      _default_attrs t' = _default_attrs t /\
      (light_mode_ok t -> light_mode_ok t')
  | None, None => True
  | _, _ => False
  end.

(** From [w] to [w'] the destination was called only to write non-empty
    chunks, each write followed by a flush. *)
Definition flushes (w w' : World) : Prop :=
  exists chunks,
    wrapped w' = wrapped w ++ flushed_writes chunks /\
    Forall (fun d : str => d <> []) chunks.

(** ** Making the console object *)


Module Startup.



End Startup.

(** ** Sample worlds *)

(** Grey on black, the usual attributes of a fresh console. *)
Definition default_winterm : WinTermState :=
  {| _default_attrs := 7; _fore := 7; _back := 0; _style := 0; _light_mode := 0 |}.

(** An interactive Windows console whose API accepts every request. *)
Definition windows_console : World :=
  {| winterm := Some default_winterm; console := [];
     console_accepts := fun _ => true; wrapped := [];
     wrapped_closed := Some false; wrapped_isatty := Some true;
     wrapped_is_std := true; pycharm_hosted := false;
     os_name_nt := true; winapi_test := true |}.

(** An interactive terminal on a platform without the console API. *)
Definition posix_terminal : World :=
  {| winterm := None; console := [];
     console_accepts := fun _ => false; wrapped := [];
     wrapped_closed := Some false; wrapped_isatty := Some true;
     wrapped_is_std := true; pycharm_hosted := false;
     os_name_nt := false; winapi_test := false |}.

(** * Properties *)

(** ** Sequencing *)

Lemma bind_assoc {A B C} (m : M A) (k1 : A -> M B) (k2 : B -> M C) w :
  bind (bind m k1) k2 w = bind m (fun a => bind (k1 a) k2) w.
Proof. unfold bind. now destruct (m w) as [[a|e] w1]. Qed.

Lemma bind_returns {A B} (m : M A) (k : A -> M B) w a w1 :
  m w = (Returns a, w1) -> bind m k w = k a w1.
Proof. intros E. unfold bind. now rewrite E. Qed.

Lemma bind_raises {A B} (m : M A) (k : A -> M B) w e w1 :
  m w = (Raises e, w1) -> bind m k w = (Raises e, w1).
Proof. intros E. unfold bind. now rewrite E. Qed.

(** ** Characters and scanning *)

Lemma ascii_eqb_eq a b : ascii_eqb a b = true <-> a = b.
Proof. apply Ascii.eqb_eq. Qed.

Lemma ascii_eqb_neq a b : ascii_eqb a b = false <-> a <> b.
Proof. apply Ascii.eqb_neq. Qed.

Lemma contains_cons c a s :
  contains c (a :: s) = ascii_eqb c a || contains c s.
Proof. reflexivity. Qed.

Lemma contains_app c s1 s2 :
  contains c (s1 ++ s2) = contains c s1 || contains c s2.
Proof. apply existsb_app. Qed.

Lemma span_while_app p s :
  fst (span_while p s) ++ snd (span_while p s) = s.
Proof.
  induction s as [|c s IH]; simpl; [reflexivity|].
  destruct (p c); [|reflexivity].
  destruct (span_while p s) as [a b]; simpl in *. now rewrite IH.
Qed.

(** A CSI match starts at an ESC and has its closing m further on. *)
Lemma ANSI_CSI_RE_Some s gs len :
  ANSI_CSI_RE s = Some (gs, len) ->
  (exists s', s = ESC :: s') /\ contains ch_m s = true.
Proof.
  unfold ANSI_CSI_RE. destruct s as [|c0 [|c1 rest]]; try discriminate.
  destruct (ascii_eqb c0 ESC) eqn:E0; cbn [andb]; [|discriminate].
  destruct (ascii_eqb c1 ch_lbracket) eqn:E1; [|discriminate].
  pose proof (span_while_app is_param_char rest) as Happ.
  destruct (span_while is_param_char rest) as [params after]; cbn [fst snd] in Happ.
  destruct after as [|c after]; [discriminate|].
  destruct (ascii_eqb c ch_m) eqn:Em; [|discriminate].
  intros _. apply ascii_eqb_eq in E0, Em. subst c0 c. split; [eauto|].
  rewrite !contains_cons, <- Happ, contains_app, contains_cons.
  replace (ascii_eqb ch_m ch_m) with true by (symmetry; apply Ascii.eqb_refl).
  now rewrite !orb_true_r.
Qed.

Lemma until_bel_Some s p : until_bel s = Some p -> contains BEL s = true.
Proof.
  revert p. induction s as [|c s IH]; intros p; cbn [until_bel]; [discriminate|].
  rewrite contains_cons. unfold ascii_eqb. rewrite (Ascii.eqb_sym BEL c).
  destruct (Ascii.eqb c BEL); [reflexivity|].
  destruct (Ascii.eqb c LF); [discriminate|].
  destruct (until_bel s) as [q|]; [|discriminate].
  intros _. cbn [orb]. eauto.
Qed.

(** An OSC match starts at an ESC and has its BEL further on. *)
Lemma ANSI_OSC_RE_Some s gs len :
  ANSI_OSC_RE s = Some (gs, len) ->
  (exists s', s = ESC :: s') /\ contains BEL s = true.
Proof.
  unfold ANSI_OSC_RE. destruct s as [|c0 [|c1 rest]]; try discriminate.
  destruct (ascii_eqb c0 ESC) eqn:E0; cbn [andb]; [|discriminate].
  destruct (ascii_eqb c1 ch_rbracket) eqn:E1; [|discriminate].
  destruct (until_bel rest) as [payload|] eqn:Eu; [|discriminate].
  intros _. apply ascii_eqb_eq in E0. subst c0. split; [eauto|].
  rewrite !contains_cons. apply until_bel_Some in Eu. rewrite Eu.
  now rewrite !orb_true_r.
Qed.

Lemma ANSI_CSI_RE_anchored : anchored ANSI_CSI_RE ch_m.
Proof. intros s gs len. apply ANSI_CSI_RE_Some. Qed.

Lemma ANSI_OSC_RE_anchored : anchored ANSI_OSC_RE BEL.
Proof. intros s gs len. apply ANSI_OSC_RE_Some. Qed.

Section Scanning.
Variables (re : matcher) (c : ascii).
Hypothesis Hre : anchored re c.

Lemma finditer_no_terminator s pos :
  contains c s = false -> finditer_from re pos 0 s = [].
Proof.
  revert pos. induction s as [|a s IH]; intros pos Hc; [reflexivity|].
  cbn [finditer_from]. destruct (re (a :: s)) as [[gs len]|] eqn:E.
  - apply Hre in E as [_ E]. congruence.
  - apply IH. rewrite contains_cons in Hc. now apply orb_false_elim in Hc.
Qed.

(** No sequence is found in a text whose first ESC, if it has one, is
    followed by no terminator. *)
Lemma finditer_dangling pre tail pos :
  contains ESC pre = false -> contains c tail = false ->
  finditer_from re pos 0 (pre ++ tail) = [].
Proof.
  intros Hpre Htail. revert pos.
  induction pre as [|a pre IH]; intros pos; cbn [app finditer_from].
  - now apply finditer_no_terminator.
  - rewrite contains_cons in Hpre. apply orb_false_elim in Hpre as [Ha Hpre].
    destruct (re (a :: pre ++ tail)) as [[gs len]|] eqn:E.
    + apply Hre in E as [[s' E] _]. injection E as -> _.
      unfold ascii_eqb in Ha. now rewrite Ascii.eqb_refl in Ha.
    + now apply IH.
Qed.
End Scanning.

(** ** Native calls leave the destination alone *)

Lemma native_step_refl w : native_step w w.
Proof. unfold native_step. tauto. Qed.

Lemma native_step_trans w1 w2 w3 :
  native_step w1 w2 -> native_step w2 w3 -> native_step w1 w3.
Proof.
  unfold native_step. intros (a1 & b1 & c1 & d1 & e1) (a2 & b2 & c2 & d2 & e2).
  repeat split; try congruence; tauto.
Qed.

Lemma titles_app cs1 cs2 : titles (cs1 ++ cs2) = titles cs1 ++ titles cs2.
Proof.
  induction cs1 as [|[h a|t] cs1 IH]; simpl; [reflexivity|assumption|].
  now rewrite IH.
Qed.

Lemma attribute_calls_app cs1 cs2 :
  attribute_calls (cs1 ++ cs2) = (attribute_calls cs1 + attribute_calls cs2)%nat.
Proof.
  induction cs1 as [|[h a|t] cs1 IH]; simpl; [reflexivity| |assumption].
  now rewrite IH.
Qed.

Lemma written_app es1 es2 : written (es1 ++ es2) = written es1 ++ written es2.
Proof.
  induction es1 as [|[d|] es1 IH]; simpl; [reflexivity| |assumption].
  now rewrite IH, app_assoc.
Qed.

Lemma SetConsoleTextAttribute_step h a w :
  native_step w (snd (win32.SetConsoleTextAttribute h a w)).
Proof.
  unfold win32.SetConsoleTextAttribute, bind, modify, gets, ret, raise; simpl.
  destruct (console_accepts w _); simpl; unfold native_step; simpl;
    rewrite titles_app; simpl; rewrite app_nil_r; tauto.
Qed.

Lemma update_step f w : native_step w (snd (WinTerm.update f w)).
Proof.
  unfold WinTerm.update, modify, native_step; simpl.
  repeat split; try tauto; rewrite fmap_is_Some; tauto.
Qed.

Lemma set_console_attrs_step attrs s w :
  native_step w (snd (WinTerm.set_console_attrs attrs s w)).
Proof.
  unfold WinTerm.set_console_attrs, WinTerm.get_attrs, WinTerm.self, bind, gets.
  destruct attrs as [a|]; simpl.
  - apply SetConsoleTextAttribute_step.
  - destruct (winterm w); simpl.
    + apply SetConsoleTextAttribute_step.
    + apply native_step_refl.
Qed.

Lemma bind_step {A B} (m : M A) (k : A -> M B) w :
  native_step w (snd (m w)) ->
  (forall a w', native_step w' (snd (k a w'))) ->
  native_step w (snd (bind m k w)).
Proof.
  intros Hm Hk. unfold bind. destruct (m w) as [[a|e] w']; simpl in *.
  - eapply native_step_trans; [exact Hm|apply Hk].
  - exact Hm.
Qed.

Lemma invoke_step f args w : native_step w (snd (WinTerm.invoke f args w)).
Proof.
  assert (Hr : forall s w, native_step w (snd (WinTerm.reset_all s w))).
  { intros s w0. apply bind_step; [apply update_step|].
    intros _ w'. apply set_console_attrs_step. }
  assert (Hf : forall c l s w, native_step w (snd (WinTerm.set_foreground c l s w))).
  { intros c l s w0. apply bind_step; [apply update_step|].
    intros _ w'. apply set_console_attrs_step. }
  assert (Hb : forall c l s w, native_step w (snd (WinTerm.set_background c l s w))).
  { intros c l s w0. apply bind_step; [apply update_step|].
    intros _ w'. apply set_console_attrs_step. }
  destruct f; destruct args as [|a1 [|a2 [|a3 [|a4 args]]]]; simpl;
    auto using native_step_refl, set_console_attrs_step.
Qed.

Lemma for_each_step {A} (xs : list A) (body : A -> M unit) w :
  (forall x w', native_step w' (snd (body x w'))) ->
  native_step w (snd (for_each xs body w)).
Proof.
  intros Hb. revert w. induction xs as [|x xs IH]; intros w; simpl.
  - apply native_step_refl.
  - apply bind_step; [apply Hb|]. intros _ w'. apply IH.
Qed.

Lemma handle_ansi_sequence_step self ps w :
  native_step w (snd (AnsiToWin32.handle_ansi_sequence self ps w)).
Proof.
  unfold AnsiToWin32.handle_ansi_sequence. apply for_each_step.
  intros x w'. destruct (AnsiToWin32.win32_calls self !! x) as [[f args]|].
  - apply invoke_step.
  - apply native_step_refl.
Qed.

(** ** Text without a complete control sequence *)

Lemma slice_all (text : str) : slice text 0 (length text) = text.
Proof. unfold slice. rewrite Nat.sub_0_r, drop_0. apply firstn_all. Qed.

(** A text in which neither pattern finds a sequence goes to the
    destination whole. *)
Lemma process_text_plain self text w :
  finditer ANSI_OSC_RE text = [] ->
  finditer ANSI_CSI_RE text = [] ->
  AnsiToWin32.process_text self text w =
    (Returns tt,
     match text with
     | [] => w
     | _ => add_wrapped Flush (add_wrapped (Write text) w)
     end).
Proof.
  intros Hosc Hcsi.
  unfold AnsiToWin32.process_text, AnsiToWin32.convert_osc.
  rewrite Hosc. cbn [for_fold]. unfold bind at 1. unfold ret at 1.
  rewrite Hcsi. cbn [for_fold]. unfold bind at 1. unfold ret at 1.
  unfold AnsiToWin32.write_plain_text.
  destruct text as [|a s]; [reflexivity|].
  change (0 <? length (a :: s))%nat with true. cbv iota.
  rewrite slice_all. reflexivity.
Qed.

Lemma stripped_plain w text :
  finditer ANSI_OSC_RE text = [] ->
  finditer ANSI_CSI_RE text = [] ->
  stripped w text = text.
Proof.
  intros Hosc Hcsi. unfold stripped, emitted, AnsiToWin32.write.
  cbn [AnsiToWin32.strip AnsiToWin32.convert AnsiToWin32.autoreset orb
       translator].
  unfold bind. rewrite process_text_plain by assumption.
  cbn [ret snd]. destruct text as [|a s].
  - now rewrite drop_all.
  - cbn [wrapped add_wrapped]. rewrite <- app_assoc, drop_app_length.
    cbn [app written]. f_equal. apply app_nil_r.
Qed.

(** A text in which nothing before the first ESC is special, and nothing
    after it terminates a sequence, goes to the destination whole. *)
Lemma process_text_dangling self pre tail w :
  contains ESC pre = false ->
  contains ch_m tail = false ->
  contains BEL tail = false ->
  AnsiToWin32.process_text self (pre ++ tail) w =
    (Returns tt,
     match pre ++ tail with
     | [] => w
     | _ => add_wrapped Flush (add_wrapped (Write (pre ++ tail)) w)
     end).
Proof.
  intros Hpre Hm Hbel. apply process_text_plain.
  - now apply (finditer_dangling _ _ ANSI_OSC_RE_anchored).
  - now apply (finditer_dangling _ _ ANSI_CSI_RE_anchored).
Qed.

Lemma write_dangling self pre tail w :
  contains ESC pre = false ->
  contains ch_m tail = false ->
  contains BEL tail = false ->
  AnsiToWin32.write self (pre ++ tail) w =
    (if AnsiToWin32.autoreset self then AnsiToWin32.reset_all self else ret tt)
      (forwarded self (pre ++ tail) w).
Proof.
  intros Hpre Hm Hbel. unfold AnsiToWin32.write, forwarded.
  destruct (AnsiToWin32.strip self || AnsiToWin32.convert self).
  - unfold bind at 1. now rewrite process_text_dangling.
  - reflexivity.
Qed.

Lemma written_forwarded self text w :
  written (wrapped (forwarded self text w)) = written (wrapped w) ++ text.
Proof.
  unfold forwarded.
  destruct (AnsiToWin32.strip self || AnsiToWin32.convert self).
  - destruct text as [|a s]; [now rewrite app_nil_r|].
    simpl. rewrite <- app_assoc, written_app. simpl. now rewrite app_nil_r.
  - simpl. rewrite written_app. simpl. now rewrite app_nil_r.
Qed.

Lemma wrapped_closed_forwarded self text w :
  wrapped_closed (forwarded self text w) = wrapped_closed w.
Proof.
  unfold forwarded.
  destruct (AnsiToWin32.strip self || AnsiToWin32.convert self);
    [destruct text|]; reflexivity.
Qed.

(** What a reset adds to the destination, mode by mode. *)
Lemma written_reset_all self w :
  written (wrapped (snd (AnsiToWin32.reset_all self w))) =
    written (wrapped w) ++
    match mode_of self with
    | Passthrough =>
        if negb (default true (wrapped_closed w)) then Style.RESET_ALL else []
    | _ => []
    end.
Proof.
  unfold AnsiToWin32.reset_all, mode_of.
  destruct (AnsiToWin32.convert self).
  - destruct (handle_ansi_sequence_step self (py "0") w) as [-> _].
    now rewrite app_nil_r.
  - destruct (AnsiToWin32.strip self); simpl; [now rewrite app_nil_r|].
    unfold bind, StreamWrapper.closed, gets; cbn [fst snd].
    destruct (default true (wrapped_closed w)); cbn [negb ret snd];
      [now rewrite app_nil_r|].
    unfold AnsiToWin32.wrapped_write, modify, add_wrapped; cbn [snd wrapped].
    rewrite written_app. cbn [written]. now rewrite app_nil_r.
Qed.

Lemma handle_empty_table self ps w :
  AnsiToWin32.win32_calls self = ∅ ->
  AnsiToWin32.handle_ansi_sequence self ps w = (Returns tt, w).
Proof.
  intros Hempty. unfold AnsiToWin32.handle_ansi_sequence. rewrite Hempty.
  induction (AnsiToWin32.params_of ps) as [|p params IH]; [reflexivity|].
  cbn [for_each]. rewrite lookup_empty. unfold bind, ret at 1.
  exact IH.
Qed.



(** C1, as amended.  For a text without any ESC byte, [write] hands the
    destination exactly the bytes of the text in Strip and in Convert mode,
    and in Passthrough mode when [autoreset] is off or the destination is
    closed; in Passthrough mode with [autoreset] on and the destination
    open, the text is followed by the reset sequence ESC [ 0 m. *)
Theorem C1_plain_text_round_trip self text w :
  contains ESC text = false ->
  written (wrapped (snd (AnsiToWin32.write self text w))) =
    written (wrapped w) ++ text ++ reset_suffix self w.
Proof.
  intros Hesc. rewrite <- (app_nil_r text) at 1.
  rewrite write_dangling by (assumption || reflexivity).
  rewrite app_nil_r. unfold reset_suffix.
  destruct (AnsiToWin32.autoreset self); cbn [andb].
  - rewrite written_reset_all, written_forwarded, wrapped_closed_forwarded.
    rewrite <- app_assoc. reflexivity.
  - cbn [snd ret]. rewrite written_forwarded.
    destruct (mode_of self); now rewrite app_nil_r.
Qed.

Lemma C1_plain_text_round_trip_witness :
  written (wrapped (snd (AnsiToWin32.write (translator false true false ∅)
                           (py "Plain text without styling.") posix_terminal))) =
  py "Plain text without styling.".
Proof.
  exact (C1_plain_text_round_trip (translator false true false ∅)
           (py "Plain text without styling.") posix_terminal eq_refl).
Defined.

(** C1 as stated fails: a Passthrough translator with [autoreset] writes
    the reset sequence after a plain text, so the destination receives more
    than the bytes of the text. *)
Lemma C1_counterexample :
  contains ESC (py "hi") = false /\
  AnsiToWin32.__init__ (Some false) (Some false) true posix_terminal =
    (Returns (translator false false true ∅), posix_terminal) /\
  mode_of (translator false false true ∅) = Passthrough /\
  written (wrapped (snd (AnsiToWin32.write (translator false false true ∅)
                           (py "hi") posix_terminal))) =
    py "hi" ++ ESC :: py "[0m" /\
  written (wrapped (snd (AnsiToWin32.write (translator false false true ∅)
                           (py "hi") posix_terminal))) <> py "hi".
Proof.
  repeat split; try reflexivity. vm_compute. discriminate.
Qed.

(** ** Sequences that are not terminated *)



Lemma no_match_has_no_sequence s :
  (forall k, ANSI_CSI_RE (drop k s) = None /\ ANSI_OSC_RE (drop k s) = None) ->
  has_sequence s = false.
Proof.
  induction s as [|a s IH]; intros H; [reflexivity|]. cbn [has_sequence].
  destruct (H 0%nat) as [Hc Ho]. cbn [drop] in Hc, Ho. rewrite Hc, Ho.
  rewrite !bool_decide_eq_false_2 by (intros [? ?]; discriminate).
  apply IH. intros k. apply (H (S k)).
Qed.

Lemma contains_drop c k (s : str) :
  contains c s = false -> contains c (drop k s) = false.
Proof.
  revert k. induction s as [|a s IH]; intros k H; [now rewrite drop_nil|].
  destruct k as [|k]; [exact H|]. cbn [drop]. apply IH.
  rewrite contains_cons in H. now apply orb_false_elim in H.
Qed.

(** A sequence starts at an ESC and needs its terminator after it: a text
    whose first ESC is followed by neither the letter m nor BEL holds no
    complete sequence. *)
Lemma dangling_has_no_sequence pre rest :
  contains ESC pre = false ->
  contains ch_m rest = false ->
  contains BEL rest = false ->
  has_sequence (pre ++ ESC :: rest) = false.
Proof.
  intros Hpre Hm Hb. induction pre as [|a pre IH]; cbn [app].
  - apply no_match_has_no_sequence. intros k.
    assert (Hk : forall c, c <> ESC -> contains c rest = false ->
                 contains c (drop k (ESC :: rest)) = false).
    { intros c Hc Hr. apply contains_drop.
      rewrite contains_cons, Hr, orb_false_r. now apply ascii_eqb_neq. }
    split.
    + destruct (ANSI_CSI_RE (drop k (ESC :: rest))) as [[gs len]|] eqn:E;
        [|reflexivity].
      apply ANSI_CSI_RE_anchored in E as [_ E].
      rewrite Hk in E; [discriminate|discriminate|assumption].
    + destruct (ANSI_OSC_RE (drop k (ESC :: rest))) as [[gs len]|] eqn:E;
        [|reflexivity].
      apply ANSI_OSC_RE_anchored in E as [_ E].
      rewrite Hk in E; [discriminate|discriminate|assumption].
  - rewrite contains_cons in Hpre. apply orb_false_elim in Hpre as [Ha Hpre].
    cbn [has_sequence]. rewrite (IH Hpre), orb_false_r.
    apply ascii_eqb_neq in Ha.
    destruct (ANSI_CSI_RE (a :: pre ++ ESC :: rest)) as [[gs len]|] eqn:Ec.
    { apply ANSI_CSI_RE_anchored in Ec as [[s' [= -> _]] _]. congruence. }
    destruct (ANSI_OSC_RE (a :: pre ++ ESC :: rest)) as [[gs len]|] eqn:Eo.
    { apply ANSI_OSC_RE_anchored in Eo as [[s' [= -> _]] _]. congruence. }
    rewrite !bool_decide_eq_false_2 by (intros [? ?]; discriminate).
    reflexivity.
Qed.



(** ** One OSC sequence in a text *)

Section ScanningOne.
Variables (re : matcher) (c : ascii).
Hypothesis Hre : anchored re c.

Lemma finditer_skip_plain pre s pos :
  contains ESC pre = false ->
  finditer_from re pos 0 (pre ++ s) = finditer_from re (pos + length pre) 0 s.
Proof.
  intros Hpre. revert pos.
  induction pre as [|a pre IH]; intros pos; cbn [app length].
  - now rewrite Nat.add_0_r.
  - rewrite contains_cons in Hpre. apply orb_false_elim in Hpre as [Ha Hpre].
    cbn [finditer_from].
    destruct (re (a :: pre ++ s)) as [[gs len]|] eqn:E.
    + apply Hre in E as [[s' E] _]. injection E as -> _.
      unfold ascii_eqb in Ha. now rewrite Ascii.eqb_refl in Ha.
    + rewrite IH by assumption. f_equal. lia.
Qed.

Lemma finditer_skip_matched covered s pos :
  finditer_from re pos (length covered) (covered ++ s) =
  finditer_from re (pos + length covered) 0 s.
Proof.
  revert pos. induction covered as [|a covered IH]; intros pos; cbn [app length].
  - now rewrite Nat.add_0_r.
  - cbn [finditer_from]. rewrite IH. f_equal. lia.
Qed.
End ScanningOne.

Lemma until_bel_payload ps post :
  contains BEL ps = false -> contains LF ps = false ->
  until_bel (ps ++ BEL :: post) = Some ps.
Proof.
  intros Hb Hl. induction ps as [|a ps IH]; cbn [app until_bel].
  - unfold ascii_eqb. now rewrite Ascii.eqb_refl.
  - rewrite contains_cons in Hb, Hl.
    apply orb_false_elim in Hb as [Hb1 Hb], Hl as [Hl1 Hl].
    unfold ascii_eqb in *. rewrite (Ascii.eqb_sym a BEL), Hb1.
    rewrite (Ascii.eqb_sym a LF), Hl1. now rewrite IH.
Qed.

Lemma finditer_from_match re pos a s gs len :
  re (a :: s) = Some (gs, len) ->
  finditer_from re pos 0 (a :: s) =
    ReMatch pos (pos + len) gs :: finditer_from re (S pos) (len - 1) s.
Proof. intros E. cbn [finditer_from]. now rewrite E. Qed.

Lemma ANSI_OSC_RE_match ps post :
  contains BEL ps = false -> contains LF ps = false ->
  ANSI_OSC_RE (OSC ++ ps ++ BEL :: post) = Some ([ps; [BEL]], 3 + length ps)%nat.
Proof.
  intros Hb Hl. change (OSC ++ ps ++ BEL :: post) with (ESC :: "]"%char :: ps ++ BEL :: post).
  unfold ANSI_OSC_RE.
  change (ascii_eqb ESC ESC && ascii_eqb "]" ch_rbracket) with true. cbv iota.
  now rewrite until_bel_payload.
Qed.

Lemma finditer_osc_single pre ps post :
  contains ESC pre = false ->
  contains BEL ps = false -> contains LF ps = false ->
  contains BEL post = false ->
  finditer ANSI_OSC_RE (pre ++ OSC ++ ps ++ BEL :: post) =
    [ReMatch (length pre) (length pre + (3 + length ps)) [ps; [BEL]]].
Proof.
  intros Hpre Hb Hl Hpost. unfold finditer.
  rewrite (finditer_skip_plain _ _ ANSI_OSC_RE_anchored) by assumption.
  cbn [Nat.add].
  pose proof (ANSI_OSC_RE_match ps post Hb Hl) as E.
  change (OSC ++ ps ++ BEL :: post) with (ESC :: "]"%char :: ps ++ BEL :: post) in *.
  rewrite (finditer_from_match _ _ _ _ _ _ E). f_equal.
  replace (3 + length ps - 1)%nat with (length ("]"%char :: ps ++ [BEL])).
  2:{ cbn [length]. rewrite length_app. cbn [length]. lia. }
  replace ("]"%char :: ps ++ BEL :: post) with (("]"%char :: ps ++ [BEL]) ++ post).
  2:{ cbn [app]. now rewrite <- app_assoc. }
  rewrite finditer_skip_matched.
  now apply (finditer_no_terminator _ _ ANSI_OSC_RE_anchored).
Qed.

Lemma cut_out_sequence (pre ps post : str) :
  take (length pre) (pre ++ OSC ++ ps ++ BEL :: post) ++
  drop (length pre + (3 + length ps)) (pre ++ OSC ++ ps ++ BEL :: post) =
  pre ++ post.
Proof.
  rewrite take_app_length. f_equal.
  rewrite drop_app_add.
  change (OSC ++ ps ++ BEL :: post) with (ESC :: "]"%char :: ps ++ BEL :: post).
  replace (3 + length ps)%nat with (S (S (length ps + 1))) by lia.
  cbn [drop]. now rewrite drop_app_add.
Qed.

(** What [convert_osc] does with a text holding one OSC sequence. *)
Lemma convert_osc_single self pre ps post w :
  contains ESC pre = false ->
  contains BEL ps = false -> contains LF ps = false ->
  contains BEL post = false ->
  AnsiToWin32.convert_osc self (pre ++ OSC ++ ps ++ BEL :: post) w =
    match split ch_semi ps with
    | [] => (Raises IndexError, w)
    | p0 :: fields =>
        if str_in p0 (py "02") then
          match winterm w, fields with
          | None, _ => (Raises (AttributeError "NoneType" "set_title"), w)
          | Some _, [] => (Raises IndexError, w)
          | Some _, title :: _ =>
              (if console_accepts w (SetConsoleTitle title)
               then Returns (pre ++ post)
               else Raises (RuntimeError "Failed to set console title."),
               add_console (SetConsoleTitle title) w)
          end
        else (Returns (pre ++ post), w)
    end.
Proof.
  intros Hpre Hb Hl Hpost. unfold AnsiToWin32.convert_osc.
  rewrite finditer_osc_single by assumption.
  cbn [for_fold]. unfold AnsiToWin32.convert_osc_match.
  cbn [m_groups m_start m_end]. rewrite cut_out_sequence.
  destruct (split ch_semi ps) as [|p0 fields]; cbn [lookup list_lookup];
    (case_decide; [|congruence]); [reflexivity|].
  destruct (str_in p0 (py "02")); [|reflexivity].
  unfold WinTerm.self, WinTerm.set_title, win32.SetConsoleTitle.
  unfold bind, modify, gets, ret, raise. cbn beta iota.
  destruct (winterm w) as [wt|]; [|reflexivity].
  destruct fields as [|title fields]; cbn [lookup list_lookup]; [reflexivity|].
  cbn [console_accepts add_console].
  now destruct (console_accepts w (SetConsoleTitle title)).
Qed.

Lemma split_separator sep s : split sep (sep :: s) = [] :: split sep s.
Proof. cbn [split]. unfold ascii_eqb. now rewrite Ascii.eqb_refl. Qed.

Lemma split_first_field sep field more :
  contains sep field = false ->
  field_boundary sep more = true ->
  exists fields, split sep (field ++ more) = field :: fields.
Proof.
  intros Hf Hm. induction field as [|a field IH]; cbn [app].
  - destruct more as [|c more]; [now exists []|].
    cbn [field_boundary] in Hm. apply ascii_eqb_eq in Hm. subst c.
    rewrite split_separator. eauto.
  - rewrite contains_cons in Hf. apply orb_false_elim in Hf as [Ha Hf].
    destruct (IH Hf) as [fields E]. cbn [split]. rewrite E.
    unfold ascii_eqb in *. rewrite (Ascii.eqb_sym a sep), Ha. eauto.
Qed.


(** C4: the code at the failing input.  On a platform without the console
    API the global [winterm] is [None]; a translator built there with
    default arguments strips, and its [write] of a text holding an OSC
    title sequence raises [AttributeError] before anything reaches the
    destination. *)
Theorem C4_strip_write_of_title_raises :
  AnsiToWin32.__init__ None None false posix_terminal =
    (Returns (translator false true false ∅), posix_terminal) /\
  mode_of (translator false true false ∅) = Strip /\
  AnsiToWin32.write (translator false true false ∅)
    (py "before" ++ OSC ++ py "0;title" ++ BEL :: py "after") posix_terminal =
    (Raises (AttributeError "NoneType" "set_title"), posix_terminal).
Proof. repeat split. Qed.

(** The same failure for every title sequence of kind 0 and every
    translator that scans its text, wherever [winterm] is [None]. *)
Lemma write_title_without_console self w pre title post :
  AnsiToWin32.strip self || AnsiToWin32.convert self = true ->
  winterm w = None ->
  contains ESC pre = false ->
  contains BEL title = false -> contains LF title = false ->
  contains BEL post = false ->
  AnsiToWin32.write self (pre ++ OSC ++ (py "0;" ++ title) ++ BEL :: post) w =
    (Raises (AttributeError "NoneType" "set_title"), w).
Proof.
  intros Hmode Hwt Hpre Hb Hl Hpost.
  unfold AnsiToWin32.write, AnsiToWin32.process_text. rewrite Hmode.
  unfold bind at 1 2. rewrite convert_osc_single; try assumption.
  cbn [app py list_ascii_of_string split].
  change (ascii_eqb "0" ch_semi) with false.
  change (ascii_eqb ";" ch_semi) with true. cbv iota.
  change (str_in ["0"%char] (py "02")) with true. cbv iota.
  now rewrite Hwt.
Qed.

(** What the title sequence does where a console object has been put in
    place of the global (no such state comes out of the constructors as
    they are written): a [write] of ESC ] 0 ; My Title BEL in Convert mode
    requests exactly one title from the console, the string My Title, and
    calls the wrapped destination not at all; when the console accepts the
    request the text is processed without error. *)
Lemma title_extraction_with_console self w wt :
  AnsiToWin32.convert self = true ->
  winterm w = Some wt ->
  let text := OSC ++ py "0;My Title" ++ [BEL] in
  let w' := snd (AnsiToWin32.write self text w) in
  titles (console w') = titles (console w) ++ [py "My Title"] /\
  wrapped w' = wrapped w /\
  (console_accepts w (SetConsoleTitle (py "My Title")) = true ->
   AnsiToWin32.process_text self text w =
     (Returns tt, add_console (SetConsoleTitle (py "My Title")) w)).
Proof.
  intros Hc Hwt text w'.
  assert (Hosc : AnsiToWin32.convert_osc self text w =
    (if console_accepts w (SetConsoleTitle (py "My Title")) then Returns []
     else Raises (RuntimeError "Failed to set console title."),
     add_console (SetConsoleTitle (py "My Title")) w)).
  { pose proof (convert_osc_single self [] (py "0;My Title") [] w
                  eq_refl eq_refl eq_refl eq_refl) as H.
    cbn [app] in H. unfold text. rewrite H, Hwt. reflexivity. }
  assert (Hp : AnsiToWin32.process_text self text w =
    (if console_accepts w (SetConsoleTitle (py "My Title")) then Returns tt
     else Raises (RuntimeError "Failed to set console title."),
     add_console (SetConsoleTitle (py "My Title")) w)).
  { unfold AnsiToWin32.process_text. unfold bind at 1. rewrite Hosc.
    now destruct (console_accepts w _). }
  assert (Hw : titles (console w') = titles (console w) ++ [py "My Title"]
               /\ wrapped w' = wrapped w).
  { subst w'. unfold AnsiToWin32.write. rewrite Hc, orb_true_r.
    unfold bind. rewrite Hp.
    destruct (console_accepts w _).
    - destruct (AnsiToWin32.autoreset self).
      + unfold AnsiToWin32.reset_all. rewrite Hc.
        destruct (handle_ansi_sequence_step self (py "0")
                    (add_console (SetConsoleTitle (py "My Title")) w))
          as (Hwr & _ & _ & Ht & _).
        rewrite Ht, Hwr. cbn [console add_console wrapped].
        now rewrite titles_app.
      + cbn [snd ret console add_console wrapped]. now rewrite titles_app.
    - cbn [snd console add_console wrapped]. now rewrite titles_app. }
  destruct Hw as [Ht Hwr]. repeat split; [exact Ht|exact Hwr|].
  intros Hok. now rewrite Hp, Hok.
Qed.




(** ** Construction *)

Lemma isatty_interactive w :
  StreamWrapper.isatty w = (Returns (interactive w), w).
Proof.
  unfold interactive, StreamWrapper.isatty, bind, gets; cbn [fst snd].
  now destruct (pycharm_hosted w).
Qed.

Lemma default_conversion_eq w :
  AnsiToWin32.default_conversion w =
    (Returns (os_name_nt w && winapi_test w && interactive w), w).
Proof.
  unfold AnsiToWin32.default_conversion, bind, gets, ret; cbn [fst snd].
  destruct (os_name_nt w); cbn [negb andb]; [|reflexivity].
  destruct (winapi_test w); cbn [negb andb]; [|reflexivity].
  apply isatty_interactive.
Qed.

(** The table is empty unless the translator converts and the console
    object exists; then building it stops at the first attribute that
    [WinTerm] does not define. *)
Lemma get_win32_calls_eq c w :
  AnsiToWin32.get_win32_calls c w =
    if c && bool_decide (is_Some (winterm w))
    then (Raises (AttributeError "WinTerm" "style"), w)
    else (Returns ∅, w).
Proof.
  unfold AnsiToWin32.get_win32_calls, bind, gets; cbn [fst snd].
  now destruct (c && bool_decide (is_Some (winterm w))).
Qed.

Lemma init_eq convert strip autoreset w :
  AnsiToWin32.__init__ convert strip autoreset w =
    let c := default (os_name_nt w && winapi_test w && interactive w) convert in
    if c && bool_decide (is_Some (winterm w))
    then (Raises (AttributeError "WinTerm" "style"), w)
    else (Returns (translator c (default (negb c) strip) autoreset ∅), w).
Proof.
  unfold AnsiToWin32.__init__. unfold bind at 1.
  assert (E : match convert with
              | Some c => ret c
              | None => AnsiToWin32.default_conversion
              end w =
              (Returns (default (os_name_nt w && winapi_test w && interactive w)
                          convert), w)).
  { destruct convert; [reflexivity|apply default_conversion_eq]. }
  rewrite E. clear E. cbv zeta. unfold bind. rewrite get_win32_calls_eq.
  destruct (_ && bool_decide _); [reflexivity|].
  now destruct strip.
Qed.

(** Whenever the constructor returns a translator, its dispatch table is
    empty and the world is as it was. *)
Lemma init_returns_empty_table convert strip autoreset w self w' :
  AnsiToWin32.__init__ convert strip autoreset w = (Returns self, w') ->
  AnsiToWin32.win32_calls self = ∅ /\ w' = w.
Proof.
  rewrite init_eq. cbv zeta.
  destruct (_ && bool_decide _); [discriminate|].
  now intros [= <- <-].
Qed.

(** C3, as amended.  With neither [convert] nor [strip] given, a translator
    is built in Convert mode exactly when the platform is Windows, the
    console API answers and the destination is interactive, and in Strip
    mode in every other case, whether or not the destination is
    interactive; it is never built in Passthrough mode.  Whenever the three
    conditions do not all hold, the construction succeeds. *)
Theorem C3_auto_resolution w autoreset :
  let conv := os_name_nt w && winapi_test w && interactive w in
  (conv = false ->
   AnsiToWin32.__init__ None None autoreset w =
     (Returns (translator false true autoreset ∅), w)) /\
  (forall self w', AnsiToWin32.__init__ None None autoreset w = (Returns self, w') ->
     (mode_of self = Convert <-> conv = true) /\
     (mode_of self = Strip <-> conv = false) /\
     mode_of self <> Passthrough).
Proof.
  intros conv. rewrite init_eq. cbn [default]. fold conv. split.
  - intros ->. reflexivity.
  - intros self w'. destruct conv; cbn [andb negb].
    + destruct (bool_decide _); [discriminate|].
      intros [= <- _]. unfold mode_of; cbn. intuition congruence.
    + intros [= <- _]. unfold mode_of; cbn. intuition congruence.
Qed.

(** C3 as stated fails: on an interactive terminal of a platform that
    needs no conversion, the default construction yields Strip mode where
    the claim has Passthrough. *)
Lemma C3_counterexample :
  interactive posix_terminal = true /\
  AnsiToWin32.__init__ None None false posix_terminal =
    (Returns (translator false true false ∅), posix_terminal) /\
  mode_of (translator false true false ∅) = Strip /\
  spec_auto_mode (os_name_nt posix_terminal) (winapi_test posix_terminal)
                 (interactive posix_terminal) = Passthrough /\
  mode_of (translator false true false ∅) <>
    spec_auto_mode (os_name_nt posix_terminal) (winapi_test posix_terminal)
                   (interactive posix_terminal).
Proof. repeat split. discriminate. Qed.

(** A parameter the table does not know changes nothing: in particular
    green (32), which no table built by [get_win32_calls] knows. *)
Lemma green_is_not_dispatched :
  AnsiFore.GREEN ∉ map (fun e => fst (fst e)) AnsiToWin32.win32_calls_display.
Proof. vm_compute. intros H. repeat (inversion H as [|? ? ? H']; clear H; rename H' into H). Qed.

Lemma handle_unknown_parameter self w :
  AnsiToWin32.win32_calls self !! AnsiFore.GREEN = None ->
  AnsiToWin32.handle_ansi_sequence self (py "31;32") w =
  AnsiToWin32.handle_ansi_sequence self (py "31") w.
Proof.
  intros Hg. unfold AnsiToWin32.handle_ansi_sequence.
  change (AnsiToWin32.params_of (py "31;32")) with [31; 32].
  change (AnsiToWin32.params_of (py "31")) with [31].
  cbn [for_each]. change 32 with AnsiFore.GREEN. rewrite Hg.
  unfold bind. destruct (match AnsiToWin32.win32_calls self !! 31 with
                         | Some (func, args) => WinTerm.invoke func args
                         | None => ret tt
                         end w) as [[[]|e] w']; reflexivity.
Qed.

(** C2: the code at the failing input.  Where the console object exists, a
    translator cannot be built in Convert mode at all: filling the dispatch
    table asks [WinTerm] for an attribute it does not define.  Where it does
    not exist the table is empty, and a [write] of ESC [ 31 ; 32 m returns
    with no request to the console and no change of any state.  No entry of
    the table is keyed by 32 in either case. *)
Theorem C2_red_then_green_on_the_code :
  AnsiToWin32.__init__ (Some true) None false windows_console =
    (Raises (AttributeError "WinTerm" "style"), windows_console) /\
  AnsiToWin32.__init__ (Some true) None false posix_terminal =
    (Returns (translator true false false ∅), posix_terminal) /\
  AnsiToWin32.write (translator true false false ∅) (CSI ++ py "31;32m")
    posix_terminal = (Returns tt, posix_terminal) /\
  AnsiFore.GREEN ∉ map (fun e => fst (fst e)) AnsiToWin32.win32_calls_display.
Proof.
  repeat split; try reflexivity. apply green_is_not_dispatched.
Qed.

(** ** The title sequence in Convert mode *)

(** C5: the code at the failing input.  Every translator that the
    constructor returns in Convert mode was built where the global
    [winterm] is [None] (with a console object the construction raises, see
    [init_eq]); its [write] of ESC ] 0 ; My Title BEL then raises
    [AttributeError] on [winterm.set_title], and no title is requested from
    the console. *)
Theorem C5_convert_write_of_title_raises convert strip autoreset w self w' :
  AnsiToWin32.__init__ convert strip autoreset w = (Returns self, w') ->
  mode_of self = Convert ->
  let text := OSC ++ py "0;My Title" ++ [BEL] in
  winterm w' = None /\
  AnsiToWin32.write self text w' =
    (Raises (AttributeError "NoneType" "set_title"), w') /\
  titles (console (snd (AnsiToWin32.write self text w'))) = titles (console w').
Proof.
  intros Hinit Hmode text.
  assert (Hconv : AnsiToWin32.convert self = true).
  { unfold mode_of in Hmode. destruct (AnsiToWin32.convert self); [reflexivity|].
    destruct (AnsiToWin32.strip self); discriminate. }
  assert (Hwt : winterm w' = None).
  { rewrite init_eq in Hinit. cbv zeta in Hinit.
    destruct (default _ convert && bool_decide (is_Some (winterm w))) eqn:E;
      [discriminate|].
    injection Hinit as <- <-. cbn [AnsiToWin32.convert translator] in Hconv.
    rewrite Hconv in E. cbn [andb] in E. apply bool_decide_eq_false in E.
    destruct (winterm w); [|reflexivity]. exfalso. apply E. eauto. }
  assert (Hw : AnsiToWin32.write self text w' =
                 (Raises (AttributeError "NoneType" "set_title"), w')).
  { apply (write_title_without_console self w' [] (py "My Title") []);
      try reflexivity; [|exact Hwt]. now rewrite Hconv, orb_true_r. }
  split; [exact Hwt|]. split; [exact Hw|]. now rewrite Hw.
Qed.

Lemma C5_convert_write_of_title_raises_witness :
  AnsiToWin32.write (translator true false false ∅)
    (OSC ++ py "0;My Title" ++ [BEL]) posix_terminal =
    (Raises (AttributeError "NoneType" "set_title"), posix_terminal).
Proof.
  exact (proj1 (proj2 (C5_convert_write_of_title_raises (Some true) None false
                         posix_terminal (translator true false false ∅)
                         posix_terminal eq_refl eq_refl))).
Defined.

(** ** Reset *)

(** C7, as amended.  [reset_all] in Convert mode does what processing the
    CSI token with the single parameter 0 does; in Strip mode it does
    nothing; in Passthrough mode it writes the reset sequence ESC [ 0 m to
    the wrapped destination if that is still open, and nothing otherwise. *)
Theorem C7_reset_all_by_mode self w :
  match mode_of self with
  | Convert =>
      AnsiToWin32.reset_all self w =
      AnsiToWin32.process_text self (CSI ++ py "0m") w
  | Strip => AnsiToWin32.reset_all self w = (Returns tt, w)
  | Passthrough =>
      AnsiToWin32.reset_all self w =
      (Returns tt,
       if default true (wrapped_closed w) then w
       else add_wrapped (Write (CSI ++ py "0m")) w)
  end.
Proof.
  unfold mode_of, AnsiToWin32.reset_all.
  destruct (AnsiToWin32.convert self).
  - unfold AnsiToWin32.process_text, AnsiToWin32.convert_osc.
    change (finditer ANSI_OSC_RE (CSI ++ py "0m")) with (@nil re_match).
    cbn [for_fold]. unfold bind at 1. unfold ret at 1.
    change (finditer ANSI_CSI_RE (CSI ++ py "0m")) with [ReMatch 0 4 [py "0"]].
    cbn [for_fold]. unfold AnsiToWin32.process_match.
    cbn [m_start m_end m_groups].
    unfold AnsiToWin32.write_plain_text. cbn [Nat.ltb Nat.leb length app CSI py
      list_ascii_of_string].
    change (py "0") with ["0"%char]. unfold bind, ret. cbn beta iota.
    destruct (AnsiToWin32.handle_ansi_sequence self ["0"%char] w) as [[[]|e] w'];
      reflexivity.
  - destruct (AnsiToWin32.strip self); cbn [negb]; [reflexivity|].
    unfold bind, StreamWrapper.closed, gets; cbn [fst snd].
    now destruct (default true (wrapped_closed w)).
Qed.

(** C7 as stated fails: in Strip mode, with the destination open,
    [reset_all] writes nothing, so no reset sequence reaches the
    destination. *)
Lemma C7_counterexample :
  mode_of (translator false true false ∅) = Strip /\
  StreamWrapper.closed posix_terminal = (Returns false, posix_terminal) /\
  AnsiToWin32.reset_all (translator false true false ∅) posix_terminal =
    (Returns tt, posix_terminal) /\
  emitted (AnsiToWin32.reset_all (translator false true false ∅)) posix_terminal
    <> CSI ++ py "0m".
Proof. repeat split. discriminate. Qed.

(** ** One native call for each recognized parameter *)

Lemma set_console_attrs_one_call attrs s w :
  is_Some (winterm w) ->
  (forall c, console_accepts w c = true) ->
  fst (WinTerm.set_console_attrs attrs s w) = Returns tt /\
  attribute_calls (console (snd (WinTerm.set_console_attrs attrs s w))) =
    S (attribute_calls (console w)).
Proof.
  intros [wt Hwt] Hok.
  unfold WinTerm.set_console_attrs, WinTerm.get_attrs, WinTerm.self,
    win32.SetConsoleTextAttribute, bind, modify, gets, ret, raise.
  destruct attrs as [a|]; cbn beta iota; [|rewrite Hwt; cbn beta iota];
    cbn [console_accepts add_console console fst snd]; rewrite Hok;
    cbn [fst snd console add_console]; rewrite attribute_calls_app;
    cbn [attribute_calls]; (split; [reflexivity|lia]).
Qed.

Lemma update_then_set_console_attrs f s w :
  is_Some (winterm w) ->
  (forall c, console_accepts w c = true) ->
  let r := bind (WinTerm.update f) (fun _ => WinTerm.set_console_attrs None s) w in
  fst r = Returns tt /\
  attribute_calls (console (snd r)) = S (attribute_calls (console w)).
Proof.
  intros Hwt Hok. cbv zeta. unfold bind.
  change (WinTerm.update f w)
    with (Returns tt, set_winterm (f <$> winterm w) w).
  cbn beta iota.
  apply (set_console_attrs_one_call None s (set_winterm (f <$> winterm w) w)).
  - cbn [winterm set_winterm]. now apply fmap_is_Some.
  - exact Hok.
Qed.

Lemma invoke_one_call f args w :
  is_Some (winterm w) ->
  (forall c, console_accepts w c = true) ->
  (length args <= arity f)%nat ->
  fst (WinTerm.invoke f args w) = Returns tt /\
  attribute_calls (console (snd (WinTerm.invoke f args w))) =
    S (attribute_calls (console w)).
Proof.
  intros Hwt Hok Hlen.
  destruct f; destruct args as [|a1 [|a2 [|a3 [|a4 args]]]];
    cbn [length arity] in Hlen; try lia; cbn [WinTerm.invoke];
    first [ now apply set_console_attrs_one_call
          | now apply update_then_set_console_attrs ].
Qed.

Lemma SetConsoleTextAttribute_calls h a w :
  let r := win32.SetConsoleTextAttribute h a w in
  attribute_calls (console (snd r)) = S (attribute_calls (console w)).
Proof.
  cbv zeta. unfold win32.SetConsoleTextAttribute, bind, modify, gets.
  cbn [fst snd].
  destruct (console_accepts _ _); cbn [snd console add_console ret raise];
    rewrite attribute_calls_app; cbn [attribute_calls]; lia.
Qed.

Lemma set_console_attrs_calls attrs s w :
  let r := WinTerm.set_console_attrs attrs s w in
  (attribute_calls (console w) <= attribute_calls (console (snd r))
     <= S (attribute_calls (console w)))%nat /\
  (fst r = Returns tt ->
   attribute_calls (console (snd r)) = S (attribute_calls (console w))).
Proof.
  cbv zeta. unfold WinTerm.set_console_attrs, WinTerm.get_attrs, WinTerm.self.
  destruct attrs as [a|].
  - rewrite (bind_returns _ _ _ a w) by reflexivity.
    rewrite SetConsoleTextAttribute_calls. split; [lia|reflexivity].
  - destruct (winterm w) as [t|] eqn:E.
    + rewrite (bind_returns _ _ _ (WinTerm.get_attrs_of t) w)
        by (unfold bind, gets, ret; cbn [fst snd]; now rewrite E).
      rewrite SetConsoleTextAttribute_calls. split; [lia|reflexivity].
    + rewrite (bind_raises _ _ _ (AttributeError "NoneType" "get_attrs") w)
        by (unfold bind, gets, raise; cbn [fst snd]; now rewrite E).
      cbn [fst snd]. split; [lia|discriminate].
Qed.

Lemma update_then_set_console_attrs_calls f s w :
  let r := bind (WinTerm.update f) (fun _ => WinTerm.set_console_attrs None s) w in
  (attribute_calls (console w) <= attribute_calls (console (snd r))
     <= S (attribute_calls (console w)))%nat /\
  (fst r = Returns tt ->
   attribute_calls (console (snd r)) = S (attribute_calls (console w))).
Proof.
  cbv zeta. unfold bind.
  change (WinTerm.update f w)
    with (Returns tt, set_winterm (f <$> winterm w) w).
  cbn beta iota.
  apply (set_console_attrs_calls None s (set_winterm (f <$> winterm w) w)).
Qed.

(** A dispatched operation asks the console at most once, and exactly once
    if it returns. *)
Lemma invoke_calls f args w :
  let r := WinTerm.invoke f args w in
  (attribute_calls (console w) <= attribute_calls (console (snd r))
     <= S (attribute_calls (console w)))%nat /\
  (fst r = Returns tt ->
   attribute_calls (console (snd r)) = S (attribute_calls (console w))).
Proof.
  destruct f; destruct args as [|a1 [|a2 [|a3 [|a4 args]]]];
    cbn [WinTerm.invoke];
    first [ apply set_console_attrs_calls
          | apply update_then_set_console_attrs_calls
          | (cbn [raise fst snd]; split; [lia|discriminate]) ].
Qed.

(** C6, as amended.  Processing a CSI token calls the native
    set-attributes primitive once for each parameter of the token that the
    dispatch table recognizes, as each dispatched operation applies the
    attributes itself, not once for the token.  For every token whose
    fields [int] reads, in every state of the console: a call of
    [handle_ansi_sequence] that returns has made exactly as many native
    calls as the token has recognized parameters (none for a token without
    one); a call that raises has made no more than that; and the call
    returns whenever the console object exists, the console accepts the
    requests and every entry of the table can be called with the arguments
    it keeps. *)
Theorem C6_one_native_call_per_recognized_parameter self paramstring w :
  int_reads paramstring = true ->
  let r := AnsiToWin32.handle_ansi_sequence self paramstring w in
  let before := attribute_calls (console w) in
  let after := attribute_calls (console (snd r)) in
  let n := length (recognized self paramstring) in
  (before <= after <= before + n)%nat /\
  (fst r = Returns tt -> after = (before + n)%nat) /\
  (is_Some (winterm w) -> (forall c, console_accepts w c = true) ->
   callable (AnsiToWin32.win32_calls self) -> fst r = Returns tt).
Proof.
  intros _. cbv zeta.
  unfold AnsiToWin32.handle_ansi_sequence, recognized.
  generalize (AnsiToWin32.params_of paramstring) as params.
  intros params. revert w.
  induction params as [|p params IH]; intros w.
  - cbn. repeat split; lia.
  - cbn [for_each]. unfold bind.
    destruct (AnsiToWin32.win32_calls self !! p) as [[f args]|] eqn:E.
    + rewrite filter_cons_True by (rewrite E; eauto). cbn [length].
      pose proof (invoke_calls f args w) as [Hle Heq]. cbv zeta in Hle, Heq.
      pose proof (invoke_step f args w) as (_ & _ & Hacc & _ & Hsome).
      destruct (WinTerm.invoke f args w) as [[[]|e] w1] eqn:Ei;
        cbn [fst snd] in *.
      * specialize (Heq eq_refl). destruct (IH w1) as (IH1 & IH2 & IH3).
        split; [lia|]. split.
        -- intros Hr. rewrite (IH2 Hr). lia.
        -- intros Hwt Hok Hcall. apply IH3; [now apply Hsome| |exact Hcall].
           intros c. rewrite Hacc. apply Hok.
      * split; [lia|]. split; [discriminate|].
        intros Hwt Hok Hcall.
        destruct (invoke_one_call f args w Hwt Hok (Hcall _ _ _ E)) as [Hr _].
        rewrite Ei in Hr. discriminate Hr.
    + rewrite filter_cons_False by (rewrite E; intros [? ?]; discriminate).
      cbn beta iota. unfold ret at 1. cbn beta iota. apply IH.
Qed.

Lemma C6_one_native_call_per_recognized_parameter_witness :
  attribute_calls
    (console (snd (AnsiToWin32.handle_ansi_sequence
                     (translator true false false
                        {[ AnsiStyle.RESET_ALL := (WinTerm.m_reset_all, []) ]})
                     (py "0;7;0") windows_console))) = 2%nat.
Proof.
  refine (proj1 (proj2 (C6_one_native_call_per_recognized_parameter
                   (translator true false false
                      {[ AnsiStyle.RESET_ALL := (WinTerm.m_reset_all, []) ]})
                   (py "0;7;0") windows_console eq_refl)) eq_refl).
Defined.

(** C6 as stated fails: with the one entry of the table that can be built
    (0, bound to [reset_all]), the token ESC [ 0 ; 0 m makes two calls of
    the set-attributes primitive and the token ESC [ 5 m none; with the
    empty table of a translator built where there is no console object, the
    token ESC [ 0 m makes none either. *)
Lemma C6_counterexample :
  let table : gmap Z (WinTerm.method * list Z) :=
    {[ AnsiStyle.RESET_ALL := (WinTerm.m_reset_all, []) ]} in
  attribute_calls
    (console (snd (AnsiToWin32.write (translator true false false table)
                     (CSI ++ py "0;0m") windows_console))) = 2%nat /\
  attribute_calls
    (console (snd (AnsiToWin32.write (translator true false false table)
                     (CSI ++ py "5m") windows_console))) = 0%nat /\
  AnsiToWin32.__init__ (Some true) None false posix_terminal =
    (Returns (translator true false false ∅), posix_terminal) /\
  attribute_calls
    (console (snd (AnsiToWin32.write (translator true false false ∅)
                     (CSI ++ py "0m") posix_terminal))) = 0%nat /\
  attribute_calls
    (console (snd (AnsiToWin32.write (translator true false false table)
                     (CSI ++ py "0;0m") windows_console))) <> 1%nat.
Proof. cbv zeta. repeat split. discriminate. Qed.

(** ** Where matches lie *)

Lemma until_bel_split s p :
  until_bel s = Some p -> exists post, s = p ++ BEL :: post.
Proof.
  revert p. induction s as [|c s IH]; intros p; cbn [until_bel]; [discriminate|].
  destruct (ascii_eqb c BEL) eqn:Eb.
  - intros [= <-]. apply ascii_eqb_eq in Eb. subst c. now exists s.
  - destruct (ascii_eqb c LF); [discriminate|].
    destruct (until_bel s) as [q|]; [|discriminate].
    intros [= <-]. destruct (IH q eq_refl) as [post ->]. now exists post.
Qed.

Lemma ANSI_OSC_RE_bounded : bounded ANSI_OSC_RE.
Proof.
  intros s gs len. unfold ANSI_OSC_RE.
  destruct s as [|c0 [|c1 rest]]; try discriminate.
  destruct (ascii_eqb c0 ESC && ascii_eqb c1 ch_rbracket); [|discriminate].
  destruct (until_bel rest) as [payload|] eqn:E; [|discriminate].
  intros [= _ <-]. apply until_bel_split in E as [post ->].
  cbn [length]. rewrite length_app. cbn [length]. lia.
Qed.

Lemma ANSI_CSI_RE_bounded : bounded ANSI_CSI_RE.
Proof.
  intros s gs len. unfold ANSI_CSI_RE.
  destruct s as [|c0 [|c1 rest]]; try discriminate.
  destruct (ascii_eqb c0 ESC && ascii_eqb c1 ch_lbracket); [|discriminate].
  pose proof (span_while_app is_param_char rest) as Happ.
  destruct (span_while is_param_char rest) as [params after]; cbn [fst snd] in Happ.
  destruct after as [|c after]; [discriminate|].
  destruct (ascii_eqb c ch_m); [|discriminate].
  intros [= _ <-]. rewrite <- Happ. cbn [length]. rewrite length_app.
  cbn [length]. lia.
Qed.

Lemma spaced_weaken c c' n ms :
  (c <= c')%nat -> spaced c' n ms -> spaced c n ms.
Proof. destruct ms as [|m ms]; cbn [spaced]; [tauto|]. intros; intuition lia. Qed.

Lemma finditer_from_spaced re s pos k :
  bounded re -> (k <= length s)%nat ->
  spaced (pos + k) (pos + length s) (finditer_from re pos k s).
Proof.
  intros Hre. revert pos k.
  induction s as [|a s IH]; intros pos k Hk; cbn [finditer_from]; [exact I|].
  cbn [length] in *. destruct k as [|k].
  - destruct (re (a :: s)) as [[gs len]|] eqn:E.
    + apply Hre in E. cbn [length] in E. cbn [spaced m_start m_end].
      repeat split; try lia.
      replace (pos + len)%nat with (S pos + (len - 1))%nat by lia.
      replace (pos + S (length s))%nat with (S pos + length s)%nat by lia.
      apply IH. lia.
    + apply spaced_weaken with (S pos + 0)%nat; [lia|].
      replace (pos + S (length s))%nat with (S pos + length s)%nat by lia.
      apply IH. lia.
  - replace (pos + S k)%nat with (S pos + k)%nat by lia.
    replace (pos + S (length s))%nat with (S pos + length s)%nat by lia.
    apply IH. lia.
Qed.

Lemma finditer_spaced re text :
  bounded re -> spaced 0 (length text) (finditer re text).
Proof. intros Hre. apply (finditer_from_spaced re text 0 0 Hre). lia. Qed.

(** ** The length of a stripped text *)

Lemma for_fold_wrapped {A S} (xs : list A) (s : S) (body : S -> A -> M S) w :
  (forall s x w, wrapped (snd (body s x w)) = wrapped w) ->
  wrapped (snd (for_fold xs s body w)) = wrapped w.
Proof.
  intros Hb. revert s w. induction xs as [|x xs IH]; intros s w; [reflexivity|].
  cbn [for_fold]. unfold bind. specialize (Hb s x w).
  destruct (body s x w) as [[s'|e] w1]; cbn [snd] in *.
  - now rewrite IH.
  - exact Hb.
Qed.

Lemma convert_osc_match_wrapped text m w :
  wrapped (snd (AnsiToWin32.convert_osc_match text m w)) = wrapped w.
Proof.
  unfold AnsiToWin32.convert_osc_match.
  destruct (m_groups m) as [|ps [|command [|g gs]]]; try reflexivity.
  case_decide; [|reflexivity].
  destruct (split ch_semi ps !! 0%nat) as [p0|]; [|reflexivity].
  destruct (str_in p0 (py "02")); [|reflexivity].
  unfold WinTerm.self, WinTerm.set_title, win32.SetConsoleTitle.
  unfold bind, modify, gets, ret, raise. cbn beta iota.
  destruct (winterm w); [|reflexivity].
  destruct (split ch_semi ps !! 1%nat) as [title|]; [|reflexivity].
  cbn [console_accepts add_console].
  now destruct (console_accepts w (SetConsoleTitle title)).
Qed.

(** [convert_osc] never calls the wrapped destination. *)
Lemma convert_osc_wrapped self text w :
  wrapped (snd (AnsiToWin32.convert_osc self text w)) = wrapped w.
Proof.
  unfold AnsiToWin32.convert_osc. apply for_fold_wrapped.
  intros s x w0. apply convert_osc_match_wrapped.
Qed.

Lemma convert_osc_match_returns text m w text' w' :
  AnsiToWin32.convert_osc_match text m w = (Returns text', w') ->
  text' = take (m_start m) text ++ drop (m_end m) text.
Proof.
  unfold AnsiToWin32.convert_osc_match.
  destruct (m_groups m) as [|ps [|command [|g gs]]]; try discriminate.
  case_decide; [|now intros [= <- _]].
  destruct (split ch_semi ps !! 0%nat) as [p0|]; [|discriminate].
  destruct (str_in p0 (py "02")); [|now intros [= <- _]].
  unfold WinTerm.self, WinTerm.set_title, win32.SetConsoleTitle.
  unfold bind, modify, gets, ret, raise. cbn beta iota.
  destruct (winterm w); [|discriminate].
  destruct (split ch_semi ps !! 1%nat) as [title|]; [|discriminate].
  cbn [console_accepts add_console].
  destruct (console_accepts w (SetConsoleTitle title)); [|discriminate].
  now intros [= <- _].
Qed.

Lemma cut_length (text : str) a b :
  (a <= b)%nat ->
  (length (take a text ++ drop b text) <= length text)%nat /\
  ((a < b)%nat -> (a < length text)%nat ->
   (length (take a text ++ drop b text) < length text)%nat).
Proof.
  intros Hab. rewrite length_app, length_take, length_drop. lia.
Qed.

Lemma convert_osc_loop_length ms c n text w text' w' :
  spaced c n ms ->
  for_fold ms text AnsiToWin32.convert_osc_match w = (Returns text', w') ->
  (length text' <= length text)%nat.
Proof.
  revert c text w. induction ms as [|m ms IH]; intros c text w Hsp.
  - cbn [for_fold]. now intros [= <- _].
  - cbn [for_fold]. unfold bind.
    destruct (AnsiToWin32.convert_osc_match text m w) as [[t1|e] w1] eqn:E;
      [|discriminate].
    apply convert_osc_match_returns in E. subst t1.
    cbn [spaced] in Hsp. destruct Hsp as (_ & Hlt & _ & Hsp).
    intros H. apply (IH _ _ _ Hsp) in H.
    pose proof (cut_length text (m_start m) (m_end m)). lia.
Qed.

(** What [convert_osc] returns is no longer than the text, and shorter if
    the text holds an OSC sequence. *)
Lemma convert_osc_length self text w text' w' :
  AnsiToWin32.convert_osc self text w = (Returns text', w') ->
  (length text' <= length text)%nat /\
  (finditer ANSI_OSC_RE text <> [] -> (length text' < length text)%nat).
Proof.
  unfold AnsiToWin32.convert_osc.
  pose proof (finditer_spaced ANSI_OSC_RE text ANSI_OSC_RE_bounded) as Hsp.
  destruct (finditer ANSI_OSC_RE text) as [|m ms].
  - cbn [for_fold]. intros [= <- _]. split; [lia|congruence].
  - cbn [for_fold]. unfold bind.
    destruct (AnsiToWin32.convert_osc_match text m w) as [[t1|e] w1] eqn:E;
      [|discriminate].
    apply convert_osc_match_returns in E. subst t1.
    cbn [spaced] in Hsp. destruct Hsp as (_ & Hlt & Hend & Hsp).
    intros H. apply (convert_osc_loop_length _ _ _ _ _ _ _ Hsp) in H.
    pose proof (cut_length text (m_start m) (m_end m)). lia.
Qed.

Lemma finditer_from_csi_groups pos k s :
  Forall (fun m => exists p, m_groups m = [p]) (finditer_from ANSI_CSI_RE pos k s).
Proof.
  revert pos k. induction s as [|a s IH]; intros pos k; cbn [finditer_from];
    [constructor|].
  destruct k as [|k]; [|apply IH].
  destruct (ANSI_CSI_RE (a :: s)) as [[gs len]|] eqn:E; [|apply IH].
  constructor; [|apply IH]. cbn [m_groups].
  unfold ANSI_CSI_RE in E. destruct s as [|c1 rest]; [discriminate|].
  destruct (ascii_eqb a ESC && ascii_eqb c1 ch_lbracket); [|discriminate].
  destruct (span_while is_param_char rest) as [params after].
  destruct after as [|c after]; [discriminate|].
  destruct (ascii_eqb c ch_m); [|discriminate].
  injection E as <- _. eauto.
Qed.

Lemma write_plain_text_out self (text : str) a b w :
  (a <= b <= length text)%nat ->
  fst (AnsiToWin32.write_plain_text self text a b w) = Returns tt /\
  exists out,
    wrapped (snd (AnsiToWin32.write_plain_text self text a b w)) =
      wrapped w ++ out /\
    length (written out) = (b - a)%nat.
Proof.
  intros Hab. unfold AnsiToWin32.write_plain_text.
  destruct (a <? b)%nat eqn:E.
  - split; [reflexivity|]. exists [Write (slice text a b); Flush].
    split; [cbn; now rewrite <- app_assoc|].
    cbn [written]. rewrite app_nil_r. unfold slice.
    rewrite length_take, length_drop. lia.
  - apply Nat.ltb_ge in E. split; [reflexivity|]. exists [].
    split; [cbn; now rewrite app_nil_r|]. cbn. lia.
Qed.

Lemma process_match_empty_table self text cursor m p w :
  AnsiToWin32.win32_calls self = ∅ ->
  m_groups m = [p] ->
  (cursor <= m_start m <= length text)%nat ->
  fst (AnsiToWin32.process_match self text cursor m w) = Returns (m_end m) /\
  exists out,
    wrapped (snd (AnsiToWin32.process_match self text cursor m w)) =
      wrapped w ++ out /\
    length (written out) = (m_start m - cursor)%nat.
Proof.
  intros Hempty Hp Hc. unfold AnsiToWin32.process_match. rewrite Hp.
  destruct (write_plain_text_out self text cursor (m_start m) w Hc)
    as [Hr (out & Hout & Hlen)].
  unfold bind.
  destruct (AnsiToWin32.write_plain_text self text cursor (m_start m) w)
    as [[[]|e] w1]; cbn [fst snd] in Hr, Hout; [|discriminate].
  rewrite handle_empty_table by assumption.
  cbn [ret fst snd]. split; [reflexivity|]. exists out. now split.
Qed.

(** With an empty dispatch table the scan of [text] from [cursor] on
    returns, and writes the text less the characters its matches cover. *)
Lemma scan_writes_the_gaps self text ms cursor w :
  AnsiToWin32.win32_calls self = ∅ ->
  Forall (fun m => exists p, m_groups m = [p]) ms ->
  spaced cursor (length text) ms ->
  (cursor <= length text)%nat ->
  let r := bind (for_fold ms cursor (AnsiToWin32.process_match self text))
             (fun cur => AnsiToWin32.write_plain_text self text cur (length text))
             w in
  fst r = Returns tt /\
  exists out,
    wrapped (snd r) = wrapped w ++ out /\
    (length (written out) + covered ms = length text - cursor)%nat.
Proof.
  intros Hempty Hgs. revert cursor w.
  induction Hgs as [|m ms [p Hp] Hgs IH]; intros cursor w Hsp Hc; cbv zeta.
  - cbn [for_fold]. unfold bind at 1, ret at 1. cbn [covered].
    destruct (write_plain_text_out self text cursor (length text) w)
      as [Hr (out & Hout & Hlen)]; [lia|].
    split; [exact Hr|]. exists out. split; [exact Hout|lia].
  - cbn [spaced] in Hsp. destruct Hsp as (Hs & Hlt & Hend & Hsp).
    cbn [for_fold covered]. rewrite bind_assoc.
    destruct (process_match_empty_table self text cursor m p w Hempty Hp)
      as [Hr (out1 & Hout1 & Hlen1)]; [lia|].
    destruct (AnsiToWin32.process_match self text cursor m w)
      as [[c1|e] w1] eqn:E; cbn [fst snd] in Hr, Hout1; [|discriminate].
    injection Hr as ->. rewrite (bind_returns _ _ _ _ _ E).
    destruct (IH (m_end m) w1 Hsp Hend) as [Hr2 (out2 & Hout2 & Hlen2)].
    cbv zeta in Hr2, Hout2. split; [exact Hr2|].
    exists (out1 ++ out2). split.
    + rewrite Hout2, Hout1. now rewrite app_assoc.
    + rewrite written_app, length_app. lia.
Qed.

Lemma covered_positive c n m ms : spaced c n (m :: ms) -> (0 < covered (m :: ms))%nat.
Proof. cbn [spaced covered]. lia. Qed.

Lemma bind_ret_tt (m : M unit) w : bind m (fun _ => ret tt) w = m w.
Proof. unfold bind, ret. now destruct (m w) as [[[]|e] w']. Qed.

(** Stripping never lengthens a text, and shortens every text in which one
    of the patterns finds a sequence. *)
Lemma stripped_length w x :
  (length (stripped w x) <= length x)%nat /\
  (finditer ANSI_OSC_RE x <> [] \/ finditer ANSI_CSI_RE x <> [] ->
   (length (stripped w x) < length x)%nat).
Proof.
  unfold stripped, emitted, AnsiToWin32.write.
  cbn [AnsiToWin32.strip AnsiToWin32.convert AnsiToWin32.autoreset orb
       translator].
  fold (translator false true false ∅).
  set (T := translator false true false ∅).
  rewrite bind_ret_tt. unfold AnsiToWin32.process_text.
  pose proof (convert_osc_wrapped T x w) as Hwr.
  destruct (AnsiToWin32.convert_osc T x w) as [[x'|e] w1] eqn:E; cbn [snd] in Hwr.
  - destruct (convert_osc_length T x w x' w1 E) as [Hle Hlt].
    rewrite (bind_returns _ _ _ _ _ E).
    destruct (scan_writes_the_gaps T x' (finditer ANSI_CSI_RE x') 0 w1 eq_refl
                (finditer_from_csi_groups 0 0 x')
                (finditer_spaced ANSI_CSI_RE x' ANSI_CSI_RE_bounded)
                ltac:(lia)) as [_ (out & Hout & Hlen)].
    cbv zeta in Hout. rewrite Hout, Hwr, drop_app_length.
    split; [lia|]. intros [Hosc|Hcsi].
    + specialize (Hlt Hosc). lia.
    + destruct (finditer ANSI_OSC_RE x) as [|m ms] eqn:Eo.
      * unfold AnsiToWin32.convert_osc in E. rewrite Eo in E.
        injection E as <- _.
        pose proof (finditer_spaced ANSI_CSI_RE x ANSI_CSI_RE_bounded) as Hsp.
        destruct (finditer ANSI_CSI_RE x) as [|m ms]; [congruence|].
        apply covered_positive in Hsp. clear -Hlen Hsp. lia.
      * assert (length x' < length x)%nat by (apply Hlt; congruence).
        clear -Hlen H. lia.
  - rewrite (bind_raises _ _ _ _ _ E). cbn [snd].
    rewrite Hwr, drop_all. cbn [written length]. split; [lia|].
    intros _. destruct x as [|a x]; [discriminate E|]. cbn [length]. lia.
Qed.

Lemma has_sequence_finditer s pos :
  has_sequence s = true ->
  finditer_from ANSI_OSC_RE pos 0 s <> [] \/
  finditer_from ANSI_CSI_RE pos 0 s <> [].
Proof.
  revert pos. induction s as [|a s IH]; intros pos H; [discriminate|].
  cbn [has_sequence] in H. cbn [finditer_from].
  destruct (ANSI_CSI_RE (a :: s)) as [[gs len]|] eqn:Ec; [now right|].
  destruct (ANSI_OSC_RE (a :: s)) as [[gs len]|] eqn:Eo; [now left|].
  rewrite !bool_decide_eq_false_2 in H by (intros [? ?]; discriminate).
  now apply IH.
Qed.

(** The converse of what C8 assumes: a Strip translator does not forward
    the whole of a text in which a complete sequence starts. *)
Lemma sequence_is_not_forwarded w text :
  has_sequence text = true -> (length (stripped w text) < length text)%nat.
Proof.
  intros H. apply stripped_length. now apply has_sequence_finditer.
Qed.

(** ** Stripping twice *)

(** C9, as amended.  Stripping is idempotent at an input exactly when the
    stripped form of that input holds no complete CSI or OSC sequence:
    stripping such a form again returns it unchanged, and stripping any
    other form shortens it. *)
Theorem C9_strip_idempotent_on_clean_output w w' s :
  stripped w' (stripped w s) = stripped w s <->
  finditer ANSI_OSC_RE (stripped w s) = [] /\
  finditer ANSI_CSI_RE (stripped w s) = [].
Proof.
  split.
  - intros Heq.
    destruct (stripped_length w' (stripped w s)) as [_ Hlt].
    rewrite Heq in Hlt.
    destruct (finditer ANSI_OSC_RE (stripped w s)) as [|m ms];
      [|exfalso; assert (length (stripped w s) < length (stripped w s))%nat
          by (apply Hlt; left; discriminate); lia].
    destruct (finditer ANSI_CSI_RE (stripped w s)) as [|m ms];
      [|exfalso; assert (length (stripped w s) < length (stripped w s))%nat
          by (apply Hlt; right; discriminate); lia].
    split; reflexivity.
  - intros [Hosc Hcsi]. now apply stripped_plain.
Qed.

Lemma C9_strip_idempotent_on_clean_output_witness :
  stripped posix_terminal
    (stripped posix_terminal (CSI ++ py "31mRED" ++ CSI ++ py "0m plain")) =
  py "RED plain".
Proof.
  exact (proj2 (C9_strip_idempotent_on_clean_output posix_terminal posix_terminal
                  (CSI ++ py "31mRED" ++ CSI ++ py "0m plain"))
           (conj eq_refl eq_refl)).
Defined.

(** C9 as stated fails: one pass over ESC [ ESC [ 0 m 0 m removes the inner
    sequence and leaves ESC [ 0 m, which a second pass removes. *)
Lemma C9_counterexample :
  stripped posix_terminal (CSI ++ CSI ++ py "0m" ++ py "0m") = CSI ++ py "0m" /\
  stripped posix_terminal
    (stripped posix_terminal (CSI ++ CSI ++ py "0m" ++ py "0m")) = [] /\
  stripped posix_terminal
    (stripped posix_terminal (CSI ++ CSI ++ py "0m" ++ py "0m")) <>
  stripped posix_terminal (CSI ++ CSI ++ py "0m" ++ py "0m").
Proof. repeat split. discriminate. Qed.


(** ** Decimal numerals *)

Lemma int_of_digits_acc p acc :
  fold_left (fun acc c => 10 * acc + (Z.of_nat (nat_of_ascii c) - 48)) p acc =
  fold_left (fun acc c => 10 * acc + (Z.of_nat (nat_of_ascii c) - 48)) p 0 +
  acc * 10 ^ Z.of_nat (length p).
Proof.
  revert acc. induction p as [|c p IH]; intros acc; cbn [fold_left length].
  - change (10 ^ Z.of_nat 0) with 1. lia.
  - rewrite IH. rewrite (IH (10 * 0 + _)).
    rewrite Nat2Z.inj_succ, Z.pow_succ_r by lia. lia.
Qed.

Lemma digits_of_uint d acc :
  fold_left (fun acc c => 10 * acc + (Z.of_nat (nat_of_ascii c) - 48))
    (py (NilEmpty.string_of_uint d)) (Z.of_N acc) =
  Z.of_N (uint_value d acc).
Proof.
  revert acc. induction d; intros acc;
    cbn [NilEmpty.string_of_uint py list_ascii_of_string fold_left uint_value];
    [reflexivity|..]; fold (py (NilEmpty.string_of_uint d));
    rewrite <- IHd; f_equal;
    match goal with
    | |- context [Z.of_nat (nat_of_ascii ?c)] =>
        let v := eval vm_compute in (Z.of_nat (nat_of_ascii c)) in
        change (Z.of_nat (nat_of_ascii c)) with v
    end; lia.
Qed.

Lemma uint_value_rev d acc :
  uint_value d acc =
  (Unsigned.of_lu (Decimal.rev d) + acc * 10 ^ Unsigned.usize d)%N.
Proof.
  revert acc. induction d; intros acc; cbn [uint_value Unsigned.usize];
    [cbn; lia|..];
    rewrite IHd; rewrite N.pow_succ_r';
    unfold Decimal.rev at 2; cbn [Decimal.revapp];
    match goal with
    | |- context [Decimal.revapp d (?c Decimal.Nil)] =>
        rewrite (Unsigned.of_lu_revapp d (c Decimal.Nil))
    end; cbn [Unsigned.of_lu]; ring.
Qed.

Lemma uint_value_of_uint d : uint_value d 0 = N.of_uint d.
Proof.
  rewrite uint_value_rev, N.mul_0_l, N.add_0_r.
  symmetry. apply Unsigned.of_uint_alt.
Qed.

Lemma to_uint_not_nil m : N.to_uint m <> Decimal.Nil.
Proof.
  destruct m as [|p]; [discriminate|]. apply DecimalPos.Unsigned.to_uint_nonnil.
Qed.

Lemma str_of_Z_eq n :
  str_of_Z n = py (NilEmpty.string_of_uint (N.to_uint (Z.to_N n))).
Proof.
  unfold str_of_Z, NilZero.string_of_uint.
  pose proof (to_uint_not_nil (Z.to_N n)).
  now destruct (N.to_uint (Z.to_N n)).
Qed.

(** [int(str(n)) == n] *)
Lemma int_of_str n : 0 <= n -> int_of_digits (str_of_Z n) = n.
Proof.
  intros Hn. rewrite str_of_Z_eq. unfold int_of_digits.
  change 0 with (Z.of_N 0) at 1.
  rewrite digits_of_uint, uint_value_of_uint, DecimalN.Unsigned.of_to.
  now apply Z2N.id.
Qed.

Lemma digits_of_string_of_uint d :
  forallb is_digit (py (NilEmpty.string_of_uint d)) = true.
Proof. induction d; cbn; auto. Qed.

Lemma string_of_uint_not_empty d :
  d <> Decimal.Nil -> py (NilEmpty.string_of_uint d) <> [].
Proof. destruct d; cbn; congruence. Qed.

(** [str(n)] holds digits only, and at least one. *)
Lemma str_of_Z_digits n : forallb is_digit (str_of_Z n) = true.
Proof. rewrite str_of_Z_eq. apply digits_of_string_of_uint. Qed.

Lemma str_of_Z_isdigit n : isdigit (str_of_Z n) = true.
Proof.
  pose proof (str_of_Z_digits n) as Hd.
  assert (str_of_Z n <> []) as Hne.
  { rewrite str_of_Z_eq. apply string_of_uint_not_empty, to_uint_not_nil. }
  unfold isdigit. now destruct (str_of_Z n).
Qed.

(** A character that is neither a digit nor a minus sign does not occur in
    the rendering of an integer. *)
Lemma contains_digits c (s : str) :
  forallb is_digit s = true -> is_digit c = false -> contains c s = false.
Proof.
  intros Hs Hc. induction s as [|a s IH]; [reflexivity|].
  cbn [forallb] in Hs. apply andb_true_iff in Hs as [Ha Hs].
  rewrite contains_cons, IH by assumption.
  destruct (ascii_eqb c a) eqn:E; [|reflexivity].
  apply ascii_eqb_eq in E. congruence.
Qed.

Lemma contains_str_of_int c n :
  is_digit c = false -> c <> "-"%char -> contains c (str_of_int n) = false.
Proof.
  intros Hc Hm. unfold str_of_int.
  destruct (n <? 0); [rewrite contains_cons|];
    rewrite (contains_digits c _ (str_of_Z_digits _) Hc); [|reflexivity].
  apply ascii_eqb_neq in Hm. now rewrite Hm.
Qed.

(** ** SGR sequences in a text *)

Lemma span_while_params p r :
  forallb is_param_char p = true ->
  span_while is_param_char (p ++ ch_m :: r) = (p, ch_m :: r).
Proof.
  intros Hp. induction p as [|a p IH]; [reflexivity|].
  cbn [forallb] in Hp. apply andb_true_iff in Hp as [Ha Hp].
  cbn [app span_while]. now rewrite Ha, IH.
Qed.

Lemma ANSI_CSI_RE_match p r :
  forallb is_param_char p = true ->
  ANSI_CSI_RE (CSI ++ p ++ ch_m :: r) = Some ([p], 3 + length p)%nat.
Proof.
  intros Hp. change (CSI ++ p ++ ch_m :: r) with (ESC :: "["%char :: p ++ ch_m :: r).
  unfold ANSI_CSI_RE.
  change (ascii_eqb ESC ESC && ascii_eqb "[" ch_lbracket) with true. cbv iota.
  rewrite span_while_params by assumption.
  now change (ascii_eqb ch_m ch_m) with true.
Qed.

Lemma finditer_from_sgr pos p r :
  forallb is_param_char p = true ->
  finditer_from ANSI_CSI_RE pos 0 (CSI ++ p ++ ch_m :: r) =
    ReMatch pos (pos + (3 + length p)) [p]
    :: finditer_from ANSI_CSI_RE (pos + (3 + length p)) 0 r.
Proof.
  intros Hp. pose proof (ANSI_CSI_RE_match p r Hp) as E.
  change (CSI ++ p ++ ch_m :: r) with (ESC :: "["%char :: p ++ ch_m :: r) in *.
  rewrite (finditer_from_match _ _ _ _ _ _ E). f_equal.
  replace (3 + length p - 1)%nat with (length ("["%char :: p ++ [ch_m])).
  2:{ cbn [length]. rewrite length_app. cbn [length]. lia. }
  replace ("["%char :: p ++ ch_m :: r) with (("["%char :: p ++ [ch_m]) ++ r).
  2:{ cbn [app]. now rewrite <- app_assoc. }
  rewrite finditer_skip_matched. f_equal.
  cbn [length]. rewrite length_app. cbn [length]. lia.
Qed.

Lemma param_chars_no_esc p :
  forallb is_param_char p = true -> contains ESC p = false.
Proof.
  intros Hp. induction p as [|a p IH]; [reflexivity|].
  cbn [forallb] in Hp. apply andb_true_iff in Hp as [Ha Hp].
  rewrite contains_cons, IH by assumption.
  destruct (ascii_eqb ESC a) eqn:E; [|reflexivity].
  apply ascii_eqb_eq in E. subst a. discriminate Ha.
Qed.

(** The OSC pattern finds nothing in a text of plain pieces and SGR
    sequences. *)
Lemma finditer_osc_render ps pos :
  forallb piece_shape ps = true ->
  finditer_from ANSI_OSC_RE pos 0 (render ps) = [].
Proof.
  intros Hps. revert pos. induction ps as [|p ps IH]; intros pos; [reflexivity|].
  cbn [forallb] in Hps. apply andb_true_iff in Hps as [Hp Hps].
  cbn [render]. destruct p as [s|params]; cbn [render_piece piece_shape] in *.
  - rewrite (finditer_skip_plain _ _ ANSI_OSC_RE_anchored)
      by now apply negb_true_iff. now apply IH.
  - change ((CSI ++ params ++ [ch_m]) ++ render ps)
      with (ESC :: ("["%char :: params ++ [ch_m]) ++ render ps).
    cbn [finditer_from].
    change (ANSI_OSC_RE (ESC :: ("["%char :: params ++ [ch_m]) ++ render ps))
      with (@None (list str * nat)).
    cbv iota.
    rewrite (finditer_skip_plain _ _ ANSI_OSC_RE_anchored); [now apply IH|].
    rewrite contains_cons, contains_app, (param_chars_no_esc _ Hp). reflexivity.
Qed.

Lemma slice_middle (a mid rest : str) :
  slice (a ++ mid ++ rest) (length a) (length a + length mid) = mid.
Proof.
  unfold slice. rewrite drop_app_length.
  replace (length a + length mid - length a)%nat with (length mid) by lia.
  apply take_app_length.
Qed.

Lemma write_plain_text_middle self (a mid rest : str) w :
  fst (AnsiToWin32.write_plain_text self (a ++ mid ++ rest) (length a)
         (length a + length mid) w) = Returns tt /\
  exists out,
    wrapped (snd (AnsiToWin32.write_plain_text self (a ++ mid ++ rest) (length a)
                    (length a + length mid) w)) = wrapped w ++ out /\
    written out = mid.
Proof.
  unfold AnsiToWin32.write_plain_text. rewrite slice_middle.
  destruct (length a <? length a + length mid)%nat eqn:E.
  - split; [reflexivity|]. exists [Write mid; Flush].
    split; [cbn; now rewrite <- app_assoc|]. cbn. apply app_nil_r.
  - apply Nat.ltb_ge in E. split; [reflexivity|]. exists [].
    split; [cbn; now rewrite app_nil_r|].
    destruct mid; [reflexivity|]. cbn [length] in E. lia.
Qed.

(** Scanning a text of plain pieces and SGR sequences with an empty
    dispatch table: what is pending and the plain pieces that follow are
    written, the sequences are not. *)
Lemma scan_pieces self text ps a pending w :
  AnsiToWin32.win32_calls self = ∅ ->
  forallb piece_shape ps = true ->
  text = a ++ pending ++ render ps ->
  let r := bind (for_fold (finditer_from ANSI_CSI_RE (length a + length pending) 0
                             (render ps))
                   (length a) (AnsiToWin32.process_match self text))
             (fun cur => AnsiToWin32.write_plain_text self text cur (length text))
             w in
  fst r = Returns tt /\
  exists out, wrapped (snd r) = wrapped w ++ out /\
              written out = pending ++ plains ps.
Proof.
  intros Hempty Hps. revert a pending w.
  induction ps as [|p ps IH]; intros a pending w Htext; cbv zeta.
  - cbn [render finditer_from for_fold plains]. rewrite (bind_returns _ _ _ (length a) w)
      by reflexivity.
    subst text. cbn [render]. rewrite !length_app. cbn [length].
    rewrite Nat.add_0_r.
    destruct (write_plain_text_middle self a pending [] w) as [Hr (out & Ho & Hw)].
    split; [exact Hr|]. exists out. rewrite app_nil_r in *. now split.
  - cbn [forallb] in Hps. apply andb_true_iff in Hps as [Hp Hps].
    cbn [render plains]. destruct p as [s|params]; cbn [render_piece piece_shape] in *.
    + rewrite (finditer_skip_plain _ _ ANSI_CSI_RE_anchored)
        by now apply negb_true_iff.
      replace (length a + length pending + length s)%nat
        with (length a + length (pending ++ s))%nat
        by (rewrite length_app; lia).
      destruct (IH Hps a (pending ++ s) w) as [Hr (out & Ho & Hw)].
      { rewrite Htext. cbn [render render_piece]. now rewrite <- !app_assoc. }
      cbv zeta in Hr, Ho. split; [exact Hr|]. exists out.
      split; [exact Ho|]. now rewrite Hw, <- app_assoc.
    + replace ((CSI ++ params ++ [ch_m]) ++ render ps)
        with (CSI ++ params ++ ch_m :: render ps)
        by (now rewrite <- !app_assoc).
      rewrite finditer_from_sgr by assumption.
      cbn [for_fold]. rewrite bind_assoc.
      set (m := ReMatch (length a + length pending)
                  (length a + length pending + (3 + length params)) [params]).
      assert (Hm : exists w1 out1,
                 AnsiToWin32.process_match self text (length a) m w =
                   (Returns (m_end m), w1) /\
                 wrapped w1 = wrapped w ++ out1 /\ written out1 = pending).
      { unfold AnsiToWin32.process_match. cbn [m m_start m_groups m_end].
        rewrite Htext.
        destruct (write_plain_text_middle self a pending
                    (render (Sgr params :: ps)) w) as [Hr (out & Ho & Hw)].
        unfold bind.
        destruct (AnsiToWin32.write_plain_text self
                    (a ++ pending ++ render (Sgr params :: ps)) (length a)
                    (length a + length pending) w) as [[[]|e] w1];
          cbn [fst snd] in Hr, Ho; [|discriminate].
        rewrite handle_empty_table by assumption.
        exists w1, out. now repeat split. }
      destruct Hm as (w1 & out1 & E & Ho1 & Hw1).
      rewrite (bind_returns _ _ _ _ _ E). cbn [m_end m].
      set (a' := a ++ pending ++ CSI ++ params ++ [ch_m]).
      assert (Hlen : (length a + length pending + (3 + length params))%nat
                     = length a').
      { unfold a'. rewrite !length_app. change (length CSI) with 2%nat.
        cbn [length]. lia. }
      rewrite Hlen.
      destruct (IH Hps a' [] w1) as [Hr (out & Ho & Hw)].
      { rewrite Htext. unfold a'. cbn [render render_piece app].
        now rewrite <- !app_assoc. }
      cbn [length] in Hr, Ho. rewrite Nat.add_0_r in Hr, Ho.
      cbv zeta in Hr, Ho. split; [exact Hr|]. exists (out1 ++ out).
      split; [now rewrite Ho, Ho1, app_assoc|].
      now rewrite written_app, Hw1, Hw.
Qed.

Lemma written_flushed_writes chunks :
  written (flushed_writes chunks) = concat chunks.
Proof. induction chunks as [|d chunks IH]; cbn; [reflexivity|]. now rewrite IH. Qed.

(** With an empty dispatch table a translator that scans its text does
    nothing on a reset. *)
Lemma reset_all_empty_table self w :
  AnsiToWin32.win32_calls self = ∅ ->
  AnsiToWin32.strip self || AnsiToWin32.convert self = true ->
  AnsiToWin32.reset_all self w = (Returns tt, w).
Proof.
  intros Hempty Hscan. unfold AnsiToWin32.reset_all.
  destruct (AnsiToWin32.convert self); [now apply handle_empty_table|].
  rewrite orb_false_r in Hscan. now rewrite Hscan.
Qed.

Lemma piece_ok_shape ps :
  forallb piece_ok ps = true -> forallb piece_shape ps = true.
Proof.
  induction ps as [|p ps IH]; [reflexivity|]. cbn [forallb]. intros H.
  apply andb_true_iff in H as [Hp Hps]. unfold piece_ok in Hp.
  apply andb_true_iff in Hp as [Hp _]. now rewrite Hp, IH.
Qed.

(** X1.  A translator that scans its text and has an empty dispatch table
    (every translator the constructor returns in Strip or Convert mode)
    removes exactly the SGR sequences from a text made of plain pieces
    without ESC and of SGR sequences whose parameters [int] reads (fields
    of at most 4300 digits): [write] returns, and the destination receives
    the plain pieces, in order, and nothing else. *)
Theorem X1_strip_removes_sgr_sequences self ps w :
  AnsiToWin32.win32_calls self = ∅ ->
  AnsiToWin32.strip self || AnsiToWin32.convert self = true ->
  forallb piece_ok ps = true ->
  fst (AnsiToWin32.write self (render ps) w) = Returns tt /\
  emitted (AnsiToWin32.write self (render ps)) w = plains ps.
Proof.
  intros Hempty Hscan Hps. apply piece_ok_shape in Hps.
  destruct (scan_pieces self (render ps) ps [] [] w Hempty Hps eq_refl)
    as [Hr (out & Ho & Hw)].
  cbv zeta in Hr, Ho. cbn [length Nat.add app] in Hr, Ho, Hw.
  assert (Hp : fst (AnsiToWin32.process_text self (render ps) w) = Returns tt /\
               wrapped (snd (AnsiToWin32.process_text self (render ps) w)) =
                 wrapped w ++ out).
  { unfold AnsiToWin32.process_text, AnsiToWin32.convert_osc, finditer.
    rewrite finditer_osc_render by assumption. cbn [for_fold].
    rewrite (bind_returns _ _ _ (render ps) w) by reflexivity.
    now split. }
  destruct Hp as [Hp1 Hp2].
  unfold emitted, AnsiToWin32.write. rewrite Hscan.
  destruct (AnsiToWin32.process_text self (render ps) w) as [[[]|e] w1] eqn:E;
    cbn [fst snd] in Hp1, Hp2; [|discriminate].
  rewrite (bind_returns _ _ _ _ _ E).
  assert (Hreset : (if AnsiToWin32.autoreset self
                    then AnsiToWin32.reset_all self else ret tt) w1 =
                   (Returns tt, w1)).
  { destruct (AnsiToWin32.autoreset self); [|reflexivity].
    now apply reset_all_empty_table. }
  rewrite Hreset. cbn [fst snd]. split; [reflexivity|].
  now rewrite Hp2, drop_app_length.
Qed.

Lemma X1_strip_removes_sgr_sequences_witness :
  emitted (AnsiToWin32.write (translator false true true ∅)
             (render [Sgr (py "1;31"); Plain (py "RED"); Sgr (py "");
                      Plain (py " plain")]))
    posix_terminal = py "RED plain".
Proof.
  exact (proj2 (X1_strip_removes_sgr_sequences (translator false true true ∅)
                  [Sgr (py "1;31"); Plain (py "RED"); Sgr (py "");
                   Plain (py " plain")] posix_terminal
                  eq_refl eq_refl eq_refl)).
Defined.

(** ** Generated codes are read back *)

Lemma split_no_separator sep s :
  contains sep s = false -> split sep s = [s].
Proof.
  intros Hs. induction s as [|a s IH]; [reflexivity|].
  rewrite contains_cons in Hs. apply orb_false_elim in Hs as [Ha Hs].
  cbn [split]. rewrite (IH Hs). unfold ascii_eqb in *.
  now rewrite (Ascii.eqb_sym a sep), Ha.
Qed.

Lemma digits_are_param_chars (s : str) :
  forallb is_digit s = true -> forallb is_param_char s = true.
Proof.
  induction s as [|a s IH]; [reflexivity|]. cbn [forallb].
  intros H. apply andb_true_iff in H as [Ha Hs].
  unfold is_param_char at 1. now rewrite Ha, IH.
Qed.

Lemma str_of_int_nonneg n : 0 <= n -> str_of_int n = str_of_Z n.
Proof.
  intros Hn. unfold str_of_int. destruct (n <? 0) eqn:E; [|reflexivity].
  apply Z.ltb_lt in E. lia.
Qed.

(** The parameter string of a generated code parses to that code. *)
Lemma params_of_str n : 0 <= n -> AnsiToWin32.params_of (str_of_Z n) = [n].
Proof.
  intros Hn. unfold AnsiToWin32.params_of.
  rewrite split_no_separator
    by (apply contains_digits; [apply str_of_Z_digits|reflexivity]).
  rewrite filter_cons_True by apply str_of_Z_isdigit.
  cbn [filter list_filter map]. now rewrite int_of_str.
Qed.

(** X2.  The sequence [code_to_chars] builds for a code is read back whole
    by the translator: processing it invokes the entry the dispatch table
    has for that very code, or does nothing if there is none, and no part of
    the sequence is taken for plain text. *)
Theorem X2_generated_code_round_trip self n w :
  0 <= n ->
  AnsiToWin32.process_text self (code_to_chars n) w =
    match AnsiToWin32.win32_calls self !! n with
    | Some (func, args) => WinTerm.invoke func args w
    | None => (Returns tt, w)
    end.
Proof.
  intros Hn. pose proof (digits_are_param_chars _ (str_of_Z_digits n)) as Hp.
  unfold AnsiToWin32.process_text, AnsiToWin32.convert_osc, finditer.
  replace (code_to_chars n) with (render [Sgr (str_of_Z n)])
    by (cbn [render render_piece]; unfold code_to_chars;
        now rewrite str_of_int_nonneg, app_nil_r).
  rewrite finditer_osc_render by (cbn [forallb piece_shape]; now rewrite Hp).
  cbn [for_fold]. rewrite (bind_returns _ _ _ (render [Sgr (str_of_Z n)]) w)
    by reflexivity.
  cbn [render render_piece]. rewrite app_nil_r.
  replace (CSI ++ str_of_Z n ++ [ch_m]) with (CSI ++ str_of_Z n ++ ch_m :: [])
    by reflexivity.
  rewrite finditer_from_sgr by assumption. cbn [finditer_from for_fold Nat.add].
  unfold AnsiToWin32.process_match. cbn [m_start m_end m_groups].
  unfold AnsiToWin32.write_plain_text at 1. cbn [Nat.ltb Nat.leb].
  unfold AnsiToWin32.handle_ansi_sequence. rewrite params_of_str by assumption.
  cbn [for_each].
  assert (Hlen : length (CSI ++ str_of_Z n ++ [ch_m]) = (3 + length (str_of_Z n))%nat).
  { rewrite !length_app. change (length CSI) with 2%nat. cbn [length]. lia. }
  unfold AnsiToWin32.write_plain_text. rewrite Hlen.
  change (3 + length (str_of_Z n))%nat with (S (S (S (length (str_of_Z n))))).
  unfold bind, ret. cbn beta iota.
  destruct (AnsiToWin32.win32_calls self !! n) as [[f args]|].
  - destruct (WinTerm.invoke f args w) as [[[]|e] w1]; [|reflexivity].
    now rewrite Nat.ltb_irrefl.
  - now rewrite Nat.ltb_irrefl.
Qed.

Lemma X2_generated_code_round_trip_witness :
  AnsiToWin32.process_text
    (translator true false false {[ AnsiFore.RED := (WinTerm.m_set_foreground, [WinColor.RED]) ]})
    (code_to_chars AnsiFore.RED) windows_console =
  WinTerm.set_foreground WinColor.RED false false windows_console.
Proof.
  exact (X2_generated_code_round_trip
           (translator true false false
              {[ AnsiFore.RED := (WinTerm.m_set_foreground, [WinColor.RED]) ]})
           AnsiFore.RED windows_console ltac:(unfold AnsiFore.RED; lia)).
Defined.

(** ** The builders of ansi.py against the translator *)

Lemma split_kind_2 s :
  split ch_semi ("2"%char :: ";"%char :: s) = ["2"%char] :: split ch_semi s.
Proof. reflexivity. Qed.

(** X3.  What [ansi.set_title] builds for a title without BEL and without
    newline is read back by the translator, which writes nothing of it to
    the destination: with a console object, processing it requests the
    title from the console, cut at its first semicolon if it has one (and
    raises if the console refuses); without a console object it raises
    [AttributeError] and requests nothing. *)
Theorem X3_set_title_round_trip self w first more :
  contains ch_semi first = false ->
  field_boundary ch_semi more = true ->
  contains BEL (first ++ more) = false ->
  contains LF (first ++ more) = false ->
  AnsiToWin32.process_text self (ansi.set_title (first ++ more)) w =
    match winterm w with
    | Some _ =>
        (if console_accepts w (SetConsoleTitle first) then Returns tt
         else Raises (RuntimeError "Failed to set console title."),
         add_console (SetConsoleTitle first) w)
    | None => (Raises (AttributeError "NoneType" "set_title"), w)
    end.
Proof.
  intros Hfirst Hmore Hb Hl.
  assert (Hosc : AnsiToWin32.convert_osc self (ansi.set_title (first ++ more)) w =
    match winterm w with
    | Some _ =>
        (if console_accepts w (SetConsoleTitle first) then Returns []
         else Raises (RuntimeError "Failed to set console title."),
         add_console (SetConsoleTitle first) w)
    | None => (Raises (AttributeError "NoneType" "set_title"), w)
    end).
  { pose proof (convert_osc_single self [] (py "2;" ++ first ++ more) [] w
                  eq_refl Hb Hl eq_refl) as H.
    cbn [app] in H. unfold ansi.set_title.
    change (OSC ++ py "2;" ++ (first ++ more) ++ [BEL])
      with (OSC ++ "2"%char :: ";"%char :: (first ++ more) ++ [BEL]).
    cbn [py list_ascii_of_string app] in H. rewrite H. clear H.
    rewrite split_kind_2.
    destruct (split_first_field ch_semi first more Hfirst Hmore) as [fields ->].
    change (str_in ["2"%char] (py "02")) with true. cbv iota.
    now destruct (winterm w). }
  unfold AnsiToWin32.process_text. unfold bind at 1. rewrite Hosc.
  destruct (winterm w); [|reflexivity].
  now destruct (console_accepts w (SetConsoleTitle first)).
Qed.

Lemma X3_set_title_round_trip_witness :
  AnsiToWin32.process_text (translator false true false ∅)
    (ansi.set_title (py "build;done")) windows_console =
  (Returns tt, add_console (SetConsoleTitle (py "build")) windows_console).
Proof.
  exact (X3_set_title_round_trip (translator false true false ∅) windows_console
           (py "build") (py ";done") eq_refl eq_refl eq_refl eq_refl).
Defined.

(** A sequence that opens like a control sequence and closes with a letter
    other than m is plain text for the translator. *)
Lemma unrecognized_sequence self body final w :
  contains ch_m body = false ->
  contains BEL body = false ->
  final <> ch_m -> final <> BEL ->
  AnsiToWin32.process_text self (CSI ++ body ++ [final]) w =
    (Returns tt,
     add_wrapped Flush (add_wrapped (Write (CSI ++ body ++ [final])) w)).
Proof.
  intros Hm Hb Hfm Hfb.
  apply (process_text_dangling self [] (CSI ++ body ++ [final]) w eq_refl).
  - change (CSI ++ body ++ [final]) with (ESC :: "["%char :: body ++ [final]).
    rewrite !contains_cons, contains_app, Hm, contains_cons.
    apply ascii_eqb_neq in Hfm. unfold ascii_eqb in *.
    now rewrite (Ascii.eqb_sym ch_m final), Hfm.
  - change (CSI ++ body ++ [final]) with (ESC :: "["%char :: body ++ [final]).
    rewrite !contains_cons, contains_app, Hb, contains_cons.
    apply ascii_eqb_neq in Hfb. unfold ascii_eqb in *.
    now rewrite (Ascii.eqb_sym BEL final), Hfb.
Qed.

Lemma str_of_int_no_terminator n :
  contains ch_m (str_of_int n) = false /\ contains BEL (str_of_int n) = false.
Proof. split; apply contains_str_of_int; (reflexivity || discriminate). Qed.

(** X4.  The cursor sequences of [AnsiCursor] are not control sequences for
    the translator, whose pattern closes with the letter m only: a
    translator that scans its text, in Strip as in Convert mode, forwards
    each of them to the destination unchanged, in one write. *)
Theorem X4_cursor_sequences_pass_through self w n x y :
  let forwards text :=
    AnsiToWin32.process_text self text w =
      (Returns tt, add_wrapped Flush (add_wrapped (Write text) w)) in
  forwards (AnsiCursor.up n) /\ forwards (AnsiCursor.down n) /\
  forwards (AnsiCursor.forward n) /\ forwards (AnsiCursor.back n) /\
  forwards (AnsiCursor.position x y).
Proof.
  cbv zeta. destruct (str_of_int_no_terminator n) as [Hm Hb].
  repeat split;
    try (apply unrecognized_sequence; (assumption || discriminate)).
  destruct (str_of_int_no_terminator x) as [Hmx Hbx].
  destruct (str_of_int_no_terminator y) as [Hmy Hby].
  unfold AnsiCursor.position.
  replace (CSI ++ str_of_int y ++ py ";" ++ str_of_int x ++ py "H")
    with (CSI ++ (str_of_int y ++ py ";" ++ str_of_int x) ++ py "H")
    by (now rewrite <- !app_assoc).
  apply unrecognized_sequence; try discriminate.
  - now rewrite !contains_app, Hmy, Hmx.
  - now rewrite !contains_app, Hby, Hbx.
Qed.

(** X5.  [clear_screen] and [clear_line] accept the modes 0, 1 and 2 and
    raise [ValueError] for every other mode; the sequence they build for an
    accepted mode is forwarded unchanged by a translator that scans its
    text. *)
Theorem X5_clear_sequences self w mode :
  (0 <= mode <= 2 ->
   ansi.clear_screen mode = Valid (CSI ++ str_of_Z mode ++ py "J") /\
   ansi.clear_line mode = Valid (CSI ++ str_of_Z mode ++ py "K") /\
   AnsiToWin32.process_text self (CSI ++ str_of_Z mode ++ py "J") w =
     (Returns tt,
      add_wrapped Flush (add_wrapped (Write (CSI ++ str_of_Z mode ++ py "J")) w)) /\
   AnsiToWin32.process_text self (CSI ++ str_of_Z mode ++ py "K") w =
     (Returns tt,
      add_wrapped Flush (add_wrapped (Write (CSI ++ str_of_Z mode ++ py "K")) w))) /\
  (mode < 0 \/ 2 < mode ->
   ansi.clear_screen mode = ValueError "Mode must be 0, 1, or 2." /\
   ansi.clear_line mode = ValueError "Mode must be 0, 1, or 2.").
Proof.
  split.
  - intros Hmode.
    assert (Hv : ansi.valid_mode mode = true).
    { unfold ansi.valid_mode.
      assert (mode = 0 \/ mode = 1 \/ mode = 2) as [->|[->| ->]] by lia;
        reflexivity. }
    assert (Hs : str_of_int mode = str_of_Z mode).
    { unfold str_of_int. destruct (mode <? 0) eqn:E; [|reflexivity].
      apply Z.ltb_lt in E. lia. }
    unfold ansi.clear_screen, ansi.clear_line. rewrite Hv, Hs. cbn [negb].
    repeat split; apply unrecognized_sequence; try discriminate;
      apply contains_digits; (apply str_of_Z_digits || reflexivity).
  - intros Hmode.
    assert (Hv : ansi.valid_mode mode = false).
    { unfold ansi.valid_mode.
      destruct (mode =? 0) eqn:E0; [apply Z.eqb_eq in E0; lia|].
      destruct (mode =? 1) eqn:E1; [apply Z.eqb_eq in E1; lia|].
      destruct (mode =? 2) eqn:E2; [apply Z.eqb_eq in E2; lia|]. reflexivity. }
    unfold ansi.clear_screen, ansi.clear_line. now rewrite Hv.
Qed.

(** ** What a sequence of operations keeps *)

Section Kept.
Variable R : World -> World -> Prop.
Hypothesis R_refl : forall w, R w w.
Hypothesis R_trans : forall w1 w2 w3, R w1 w2 -> R w2 w3 -> R w1 w3.

Lemma bind_kept {A B} (m : M A) (k : A -> M B) w :
  R w (snd (m w)) ->
  (forall a w', m w = (Returns a, w') -> R w' (snd (k a w'))) ->
  R w (snd (bind m k w)).
Proof.
  intros Hm Hk. unfold bind. destruct (m w) as [[a|e] w'] eqn:E; cbn [snd] in *.
  - eapply R_trans; [exact Hm|now apply Hk].
  - exact Hm.
Qed.

Lemma for_each_kept {A} (xs : list A) (body : A -> M unit) w :
  (forall x w', R w' (snd (body x w'))) ->
  R w (snd (for_each xs body w)).
Proof.
  intros Hb. revert w. induction xs as [|x xs IH]; intros w; cbn [for_each].
  - apply R_refl.
  - apply bind_kept; [apply Hb|]. intros _ w' _. apply IH.
Qed.

Lemma for_fold_kept {A S} (xs : list A) (s : S) (body : S -> A -> M S) w :
  (forall s x w', R w' (snd (body s x w'))) ->
  R w (snd (for_fold xs s body w)).
Proof.
  intros Hb. revert s w. induction xs as [|x xs IH]; intros s w; cbn [for_fold].
  - apply R_refl.
  - apply bind_kept; [apply Hb|]. intros s' w' _. apply IH.
Qed.
End Kept.

(** ** The console object keeps its defaults *)

Lemma keeps_defaults_same w w' : winterm w' = winterm w -> keeps_defaults w w'.
Proof. unfold keeps_defaults. intros ->. destruct (winterm w); tauto. Qed.

Lemma keeps_defaults_refl w : keeps_defaults w w.
Proof. now apply keeps_defaults_same. Qed.

Lemma keeps_defaults_trans w1 w2 w3 :
  keeps_defaults w1 w2 -> keeps_defaults w2 w3 -> keeps_defaults w1 w3.
Proof.
  unfold keeps_defaults.
  destruct (winterm w1), (winterm w2), (winterm w3); try tauto.
  intros [E1 L1] [E2 L2]. split; [congruence|tauto].
Qed.

Lemma bind_keeps_defaults {A B} (m : M A) (k : A -> M B) w :
  keeps_defaults w (snd (m w)) ->
  (forall a w', keeps_defaults w' (snd (k a w'))) ->
  keeps_defaults w (snd (bind m k w)).
Proof.
  intros Hm Hk. apply (bind_kept keeps_defaults keeps_defaults_trans); auto.
Qed.

Lemma for_each_keeps_defaults {A} (xs : list A) (body : A -> M unit) w :
  (forall x w', keeps_defaults w' (snd (body x w'))) ->
  keeps_defaults w (snd (for_each xs body w)).
Proof.
  apply (for_each_kept keeps_defaults keeps_defaults_refl keeps_defaults_trans).
Qed.

Lemma for_fold_keeps_defaults {A S} (xs : list A) (s : S) (body : S -> A -> M S) w :
  (forall s x w', keeps_defaults w' (snd (body s x w'))) ->
  keeps_defaults w (snd (for_fold xs s body w)).
Proof.
  apply (for_fold_kept keeps_defaults keeps_defaults_refl keeps_defaults_trans).
Qed.

Lemma update_keeps_defaults f w :
  (forall t, _default_attrs (f t) = _default_attrs t /\
             (light_mode_ok t -> light_mode_ok (f t))) ->
  keeps_defaults w (snd (WinTerm.update f w)).
Proof.
  intros Hf. unfold keeps_defaults, WinTerm.update, modify.
  cbn [snd winterm set_winterm]. destruct (winterm w) as [t|]; cbn; [apply Hf|exact I].
Qed.

Lemma set_console_attrs_keeps_defaults attrs s w :
  keeps_defaults w (snd (WinTerm.set_console_attrs attrs s w)).
Proof.
  apply keeps_defaults_same.
  unfold WinTerm.set_console_attrs, WinTerm.get_attrs, WinTerm.self,
    win32.SetConsoleTextAttribute, bind, modify, gets, ret, raise.
  destruct attrs as [a|]; cbn beta iota;
    [|destruct (winterm w) eqn:E; cbn beta iota; [|exact E]];
    cbn [console_accepts add_console]; now destruct (console_accepts w _).
Qed.

Lemma invoke_keeps_defaults f args w :
  keeps_defaults w (snd (WinTerm.invoke f args w)).
Proof.
  assert (Hr : forall s w, keeps_defaults w (snd (WinTerm.reset_all s w))).
  { intros s w0. unfold WinTerm.reset_all, WinTerm._reset_attributes.
    apply bind_keeps_defaults;
      [|intros; apply set_console_attrs_keeps_defaults].
    apply update_keeps_defaults. intros t. cbn. tauto. }
  assert (Hf : forall c l s w,
             keeps_defaults w (snd (WinTerm.set_foreground c l s w))).
  { intros c l s w0. unfold WinTerm.set_foreground.
    apply bind_keeps_defaults;
      [|intros; apply set_console_attrs_keeps_defaults].
    apply update_keeps_defaults. intros t. cbn. split; [reflexivity|].
    intros _. unfold light_mode_ok. cbn. destruct l; tauto. }
  assert (Hb : forall c l s w,
             keeps_defaults w (snd (WinTerm.set_background c l s w))).
  { intros c l s w0. unfold WinTerm.set_background.
    apply bind_keeps_defaults;
      [|intros; apply set_console_attrs_keeps_defaults].
    apply update_keeps_defaults. intros t. cbn. split; [reflexivity|].
    intros _. unfold light_mode_ok. cbn. destruct l; tauto. }
  destruct f; destruct args as [|a1 [|a2 [|a3 [|a4 args]]]]; cbn [WinTerm.invoke];
    auto using keeps_defaults_refl, set_console_attrs_keeps_defaults.
Qed.

Lemma handle_keeps_defaults self ps w :
  keeps_defaults w (snd (AnsiToWin32.handle_ansi_sequence self ps w)).
Proof.
  unfold AnsiToWin32.handle_ansi_sequence. apply for_each_keeps_defaults.
  intros p w'. destruct (AnsiToWin32.win32_calls self !! p) as [[f args]|].
  - apply invoke_keeps_defaults.
  - apply keeps_defaults_refl.
Qed.

Lemma convert_osc_match_winterm text m w :
  winterm (snd (AnsiToWin32.convert_osc_match text m w)) = winterm w.
Proof.
  unfold AnsiToWin32.convert_osc_match.
  destruct (m_groups m) as [|ps [|command [|g gs]]]; try reflexivity.
  case_decide; [|reflexivity].
  destruct (split ch_semi ps !! 0%nat) as [p0|]; [|reflexivity].
  destruct (str_in p0 (py "02")); [|reflexivity].
  unfold WinTerm.self, WinTerm.set_title, win32.SetConsoleTitle.
  unfold bind, modify, gets, ret, raise. cbn beta iota.
  destruct (winterm w) eqn:E; [|exact E].
  destruct (split ch_semi ps !! 1%nat) as [title|]; [|exact E].
  cbn [console_accepts add_console].
  now destruct (console_accepts w (SetConsoleTitle title)).
Qed.

Lemma write_plain_text_winterm self text a b w :
  winterm (snd (AnsiToWin32.write_plain_text self text a b w)) = winterm w.
Proof. unfold AnsiToWin32.write_plain_text. now destruct (a <? b)%nat. Qed.

Lemma process_text_keeps_defaults self text w :
  keeps_defaults w (snd (AnsiToWin32.process_text self text w)).
Proof.
  unfold AnsiToWin32.process_text. apply bind_keeps_defaults.
  - unfold AnsiToWin32.convert_osc. apply for_fold_keeps_defaults.
    intros s x w'. apply keeps_defaults_same, convert_osc_match_winterm.
  - intros text' w1. apply bind_keeps_defaults.
    + apply for_fold_keeps_defaults.
      intros c m w'. unfold AnsiToWin32.process_match.
      apply bind_keeps_defaults.
      * apply keeps_defaults_same, write_plain_text_winterm.
      * intros _ w2. apply bind_keeps_defaults.
        -- destruct (m_groups m) as [|p [|q gs]];
             auto using keeps_defaults_refl, handle_keeps_defaults.
        -- intros; apply keeps_defaults_refl.
    + intros c w2. apply keeps_defaults_same, write_plain_text_winterm.
Qed.

(** X6.  Whatever is written, and whether or not the call raises, [write]
    leaves the console object in place with the default attributes it
    captured, and with its light flag among the values 0, BRIGHT and
    BRIGHT_BACKGROUND if it was so before: no control sequence in the text
    can change what a later reset restores. *)
Theorem X6_write_keeps_console_defaults self text w :
  keeps_defaults w (snd (AnsiToWin32.write self text w)).
Proof.
  unfold AnsiToWin32.write. apply bind_keeps_defaults.
  - destruct (AnsiToWin32.strip self || AnsiToWin32.convert self).
    + apply process_text_keeps_defaults.
    + now apply keeps_defaults_same.
  - intros _ w1. destruct (AnsiToWin32.autoreset self);
      [|apply keeps_defaults_refl].
    unfold AnsiToWin32.reset_all.
    destruct (AnsiToWin32.convert self); [apply handle_keeps_defaults|].
    destruct (AnsiToWin32.strip self); cbn [negb]; [apply keeps_defaults_refl|].
    apply keeps_defaults_same.
    unfold bind, StreamWrapper.closed, gets. cbn beta iota.
    now destruct (default true (wrapped_closed w1)).
Qed.

(** ** What the console is asked for *)

Lemma all_bytes_pack :
  forallb (fun b =>
             (Z.land b 7 + Z.land (Z.shiftr b 4) 7 * 16 + Z.lor (Z.land b 136) 0
                =? Z.lor b 0) &&
             (Z.land b 7 + Z.land (Z.shiftr b 4) 7 * 16 + Z.lor (Z.land b 136) 8
                =? Z.lor b 8) &&
             (Z.land b 7 + Z.land (Z.shiftr b 4) 7 * 16 + Z.lor (Z.land b 136) 128
                =? Z.lor b 128))
          (map Z.of_nat (seq 0 256)) = true.
Proof. vm_compute. reflexivity. Qed.

(** Foreground, background and style, as [_reset_attributes] takes them out
    of the default attributes, pack to the low byte of those again. *)
Lemma pack_low_byte d l :
  l = 0 \/ l = 8 \/ l = 128 ->
  Z.land d 7 + Z.land (Z.shiftr d 4) 7 * 16 + Z.lor (Z.land d 136) l =
  Z.lor (Z.land d 255) l.
Proof.
  intros Hl. set (b := Z.land d 255).
  assert (H7 : Z.land d 7 = Z.land b 7).
  { unfold b. now rewrite <- Z.land_assoc. }
  assert (H136 : Z.land d 136 = Z.land b 136).
  { unfold b. now rewrite <- Z.land_assoc. }
  assert (H4 : Z.land (Z.shiftr d 4) 7 = Z.land (Z.shiftr b 4) 7).
  { unfold b. rewrite Z.shiftr_land, <- Z.land_assoc. reflexivity. }
  rewrite H7, H136, H4.
  assert (Hb : 0 <= b < 256).
  { unfold b. change 255 with (Z.ones 8). rewrite Z.land_ones by lia.
    apply Z.mod_pos_bound. reflexivity. }
  pose proof all_bytes_pack as Hall. rewrite forallb_forall in Hall.
  specialize (Hall b).
  assert (Hin : In b (map Z.of_nat (seq 0 256))).
  { apply in_map_iff. exists (Z.to_nat b). split; [lia|].
    apply in_seq. lia. }
  apply Hall in Hin. apply andb_true_iff in Hin as [Hin H128].
  apply andb_true_iff in Hin as [H0 H8].
  apply Z.eqb_eq in H0, H8, H128.
  destruct Hl as [->|[->| ->]]; assumption.
Qed.

(** X7.  [reset_all] of the console object puts foreground, background and
    style back to what the default attributes hold, leaves the light flag
    as it is, and asks the console for the low byte of the default
    attributes joined with that flag (for a flag of 0: exactly the low byte
    of the defaults); it raises if the console refuses, the object being
    reset all the same. *)
Theorem X7_reset_all_restores_low_byte w t (on_stderr : bool) :
  winterm w = Some t ->
  light_mode_ok t ->
  let d := _default_attrs t in
  let call :=
    SetConsoleTextAttribute (if on_stderr then win32.STDERR else win32.STDOUT)
      (Z.lor (Z.land d 255) (_light_mode t)) in
  WinTerm.reset_all on_stderr w =
    (if console_accepts w call then Returns tt
     else Raises (RuntimeError "Failed to set text attributes."),
     add_console call
       (set_winterm
          (Some {| _default_attrs := d; _fore := Z.land d 7;
                   _back := Z.land (Z.shiftr d 4) 7; _style := Z.land d 136;
                   _light_mode := _light_mode t |}) w)).
Proof.
  intros Hwt Hl d call.
  unfold WinTerm.reset_all, WinTerm._reset_attributes, WinTerm.update,
    WinTerm.set_console_attrs, WinTerm.get_attrs, WinTerm.self,
    win32.SetConsoleTextAttribute, bind, modify, gets, ret, raise.
  cbn beta iota. cbn [winterm set_winterm]. rewrite Hwt. cbn [fmap option_fmap option_map].
  cbn beta iota.
  unfold WinTerm.get_attrs_of.
  cbn [_fore _back _style _light_mode _default_attrs].
  change (Z.lor WinStyle.BRIGHT WinStyle.BRIGHT_BACKGROUND) with 136.
  fold d. rewrite (pack_low_byte d (_light_mode t)) by exact Hl.
  assert (Hh : (if negb on_stderr then win32.STDOUT else win32.STDERR) =
               (if on_stderr then win32.STDERR else win32.STDOUT))
    by now destruct on_stderr.
  rewrite Hh. fold call. cbn [console_accepts add_console set_winterm].
  now destruct (console_accepts w call).
Qed.

Lemma X7_reset_all_restores_low_byte_witness :
  WinTerm.reset_all false
    (set_winterm
       (Some {| _default_attrs := 0x1F4; _fore := 1; _back := 2; _style := 8;
                _light_mode := 0 |}) windows_console) =
  (Returns tt,
   add_console (SetConsoleTextAttribute win32.STDOUT 0xF4)
     (set_winterm
        (Some {| _default_attrs := 0x1F4; _fore := 4; _back := 7; _style := 128;
                 _light_mode := 0 |}) windows_console)).
Proof.
  exact (X7_reset_all_restores_low_byte
           (set_winterm
              (Some {| _default_attrs := 0x1F4; _fore := 1; _back := 2;
                       _style := 8; _light_mode := 0 |}) windows_console)
           _ false eq_refl (or_introl eq_refl)).
Defined.

Lemma set_foreground_eq w t c (l s : bool) :
  winterm w = Some t ->
  let t' := {| _default_attrs := _default_attrs t; _fore := c; _back := _back t;
               _style := _style t;
               _light_mode := if l then WinStyle.BRIGHT else 0 |} in
  let call := SetConsoleTextAttribute
                (if negb s then win32.STDOUT else win32.STDERR)
                (WinTerm.get_attrs_of t') in
  WinTerm.set_foreground c l s w =
    (if console_accepts w call then Returns tt
     else Raises (RuntimeError "Failed to set text attributes."),
     add_console call (set_winterm (Some t') w)).
Proof.
  intros Hwt t' call.
  unfold WinTerm.set_foreground, WinTerm.update,
    WinTerm.set_console_attrs, WinTerm.get_attrs, WinTerm.self,
    win32.SetConsoleTextAttribute, bind, modify, gets, ret, raise.
  cbn beta iota. cbn [winterm set_winterm]. rewrite Hwt.
  cbn [fmap option_fmap option_map]. cbn beta iota.
  fold t'. fold call. cbn [console_accepts add_console set_winterm].
  now destruct (console_accepts w call).
Qed.

Lemma set_background_eq w t c (l s : bool) :
  winterm w = Some t ->
  let t' := {| _default_attrs := _default_attrs t; _fore := _fore t; _back := c;
               _style := _style t;
               _light_mode := if l then WinStyle.BRIGHT_BACKGROUND else 0 |} in
  let call := SetConsoleTextAttribute
                (if negb s then win32.STDOUT else win32.STDERR)
                (WinTerm.get_attrs_of t') in
  WinTerm.set_background c l s w =
    (if console_accepts w call then Returns tt
     else Raises (RuntimeError "Failed to set text attributes."),
     add_console call (set_winterm (Some t') w)).
Proof.
  intros Hwt t' call.
  unfold WinTerm.set_background, WinTerm.update,
    WinTerm.set_console_attrs, WinTerm.get_attrs, WinTerm.self,
    win32.SetConsoleTextAttribute, bind, modify, gets, ret, raise.
  cbn beta iota. cbn [winterm set_winterm]. rewrite Hwt.
  cbn [fmap option_fmap option_map]. cbn beta iota.
  fold t'. fold call. cbn [console_accepts add_console set_winterm].
  now destruct (console_accepts w call).
Qed.

(** X8.  Foreground and background share one light flag: after
    [set_foreground] and then [set_background] the object has the
    foreground of the first call, the background of the second and the light
    flag of the second alone, and that is what the console is asked for
    last; whether the foreground was set light has left no trace. *)
Theorem X8_light_flag_of_the_last_call w t c1 (l1 : bool) c2 (l2 : bool) :
  winterm w = Some t ->
  (forall c, console_accepts w c = true) ->
  let light := if l2 then WinStyle.BRIGHT_BACKGROUND else 0 in
  let r := bind (WinTerm.set_foreground c1 l1 false)
             (fun _ => WinTerm.set_background c2 l2 false) w in
  fst r = Returns tt /\
  winterm (snd r) =
    Some {| _default_attrs := _default_attrs t; _fore := c1; _back := c2;
            _style := _style t; _light_mode := light |} /\
  last (console (snd r)) =
    Some (SetConsoleTextAttribute win32.STDOUT
            (c1 + c2 * 16 + Z.lor (_style t) light)).
Proof.
  intros Hwt Hok. cbv zeta.
  pose proof (set_foreground_eq w t c1 l1 false Hwt) as E1. cbv zeta in E1.
  rewrite Hok in E1. rewrite (bind_returns _ _ _ _ _ E1).
  match type of E1 with _ = (_, ?w1) => set (w1' := w1) in * end.
  pose proof (set_background_eq w1' _ c2 l2 false eq_refl) as E2.
  cbv zeta in E2. cbn [console_accepts w1' add_console set_winterm] in E2.
  rewrite Hok in E2. rewrite E2.
  cbn [fst snd winterm console add_console set_winterm w1'
       _default_attrs _fore _back _style _light_mode].
  repeat split. rewrite last_snoc. reflexivity.
Qed.

Lemma X8_light_flag_of_the_last_call_witness :
  last (console (snd (bind (WinTerm.set_foreground WinColor.RED true false)
                        (fun _ => WinTerm.set_background WinColor.BLUE false false)
                        windows_console))) =
  Some (SetConsoleTextAttribute win32.STDOUT (4 + 1 * 16 + 0)).
Proof.
  refine (proj2 (proj2 (X8_light_flag_of_the_last_call windows_console
                          default_winterm WinColor.RED true WinColor.BLUE false
                          eq_refl _))).
  reflexivity.
Defined.

(** ** Every write is flushed *)

Lemma flushes_refl w : flushes w w.
Proof. exists []. split; [cbn; now rewrite app_nil_r|constructor]. Qed.

Lemma flushed_writes_app c1 c2 :
  flushed_writes (c1 ++ c2) = flushed_writes c1 ++ flushed_writes c2.
Proof. induction c1 as [|d c1 IH]; cbn; [reflexivity|]. now rewrite IH. Qed.

Lemma flushes_trans w1 w2 w3 : flushes w1 w2 -> flushes w2 w3 -> flushes w1 w3.
Proof.
  intros (c1 & E1 & F1) (c2 & E2 & F2). exists (c1 ++ c2). split.
  - now rewrite E2, E1, flushed_writes_app, app_assoc.
  - now apply Forall_app.
Qed.

Lemma flushes_same w w' : wrapped w' = wrapped w -> flushes w w'.
Proof. intros E. exists []. split; [cbn; now rewrite app_nil_r|constructor]. Qed.

Lemma bind_flushes {A B} (m : M A) (k : A -> M B) w :
  flushes w (snd (m w)) ->
  (forall a w', m w = (Returns a, w') -> flushes w' (snd (k a w'))) ->
  flushes w (snd (bind m k w)).
Proof. apply (bind_kept flushes flushes_trans). Qed.

Lemma write_plain_text_flushes self (text : str) a b w :
  (a < length text)%nat \/ (b <= a)%nat ->
  flushes w (snd (AnsiToWin32.write_plain_text self text a b w)).
Proof.
  intros Hab. unfold AnsiToWin32.write_plain_text.
  destruct (a <? b)%nat eqn:E; [|apply flushes_refl].
  apply Nat.ltb_lt in E. exists [slice text a b]. split.
  - cbn. now rewrite <- app_assoc.
  - constructor; [|constructor]. intros H.
    apply (f_equal length) in H. unfold slice in H.
    rewrite length_take, length_drop in H. cbn [length] in H. lia.
Qed.

Lemma process_match_flushes self (text : str) c m w :
  (c <= m_start m <= length text)%nat ->
  flushes w (snd (AnsiToWin32.process_match self text c m w)).
Proof.
  intros Hc. unfold AnsiToWin32.process_match. apply bind_flushes.
  - apply write_plain_text_flushes. lia.
  - intros _ w1 _. apply bind_flushes.
    + apply flushes_same. destruct (m_groups m) as [|p [|q gs]]; try reflexivity.
      now destruct (handle_ansi_sequence_step self p w1).
    + intros; apply flushes_refl.
Qed.

Lemma process_match_returns self text c m w v w1 :
  AnsiToWin32.process_match self text c m w = (Returns v, w1) -> v = m_end m.
Proof.
  unfold AnsiToWin32.process_match, bind, ret.
  destruct (AnsiToWin32.write_plain_text self text c (m_start m) w)
    as [[[]|e] w2]; [|discriminate].
  destruct (match m_groups m with
            | [paramstring] => AnsiToWin32.handle_ansi_sequence self paramstring
            | _ => raise (TypeError "handle_ansi_sequence: wrong number of arguments")
            end w2) as [[[]|e] w3]; [|discriminate].
  now intros [= <- _].
Qed.

Lemma scan_flushes self (text : str) ms c w :
  spaced c (length text) ms ->
  (c <= length text)%nat ->
  flushes w
    (snd (bind (for_fold ms c (AnsiToWin32.process_match self text))
            (fun cur => AnsiToWin32.write_plain_text self text cur (length text))
            w)).
Proof.
  revert c w. induction ms as [|m ms IH]; intros c w Hsp Hc.
  - cbn [for_fold]. rewrite (bind_returns _ _ _ c w) by reflexivity.
    apply write_plain_text_flushes. lia.
  - cbn [spaced] in Hsp. destruct Hsp as (Hs & Hlt & Hend & Hsp).
    cbn [for_fold]. rewrite bind_assoc. apply bind_flushes.
    + apply process_match_flushes. lia.
    + intros v w1 E. apply process_match_returns in E. subst v.
      now apply IH.
Qed.

(** X9.  Whatever the text and the dispatch table, and whether or not the
    call raises, [process_text] calls the wrapped destination only to write
    non-empty chunks of text, and follows each write by a flush. *)
Theorem X9_every_write_is_flushed self text w :
  flushes w (snd (AnsiToWin32.process_text self text w)).
Proof.
  unfold AnsiToWin32.process_text. apply bind_flushes.
  - apply flushes_same, convert_osc_wrapped.
  - intros text' w1 _.
    apply scan_flushes; [|lia].
    apply finditer_spaced, ANSI_CSI_RE_bounded.
Qed.

(** ** Parameters without an entry *)

(** X10.  A token whose fields [int] reads (no superscript digit, no field
    of more than 4300 characters) and none of whose parameters has an entry
    in the dispatch table (an empty parameter list, unknown codes, fields
    that are not numbers) is processed without any effect and without
    error. *)
Theorem X10_unknown_parameters_are_ignored self paramstring w :
  int_reads paramstring = true ->
  recognized self paramstring = [] ->
  AnsiToWin32.handle_ansi_sequence self paramstring w = (Returns tt, w).
Proof.
  intros _. unfold recognized, AnsiToWin32.handle_ansi_sequence.
  induction (AnsiToWin32.params_of paramstring) as [|p params IH];
    [reflexivity|].
  intros Hrec. cbn [for_each].
  destruct (AnsiToWin32.win32_calls self !! p) as [[f args]|] eqn:E.
  - rewrite filter_cons_True in Hrec by (rewrite E; eauto). discriminate.
  - rewrite filter_cons_False in Hrec by (rewrite E; intros [? ?]; discriminate).
    rewrite (bind_returns _ _ _ tt w) by reflexivity. now apply IH.
Qed.

Lemma X10_unknown_parameters_are_ignored_witness :
  AnsiToWin32.handle_ansi_sequence
    (translator true false false
       {[ AnsiStyle.RESET_ALL := (WinTerm.m_reset_all, []) ]})
    (py "38;5;;x;208") windows_console = (Returns tt, windows_console).
Proof.
  exact (X10_unknown_parameters_are_ignored
           (translator true false false
              {[ AnsiStyle.RESET_ALL := (WinTerm.m_reset_all, []) ]})
           (py "38;5;;x;208") windows_console eq_refl eq_refl).
Defined.

(** ** OSC sequences that set no title *)







(** ** Stripping and construction as a whole *)

(** X13.  What a Strip translator hands to the destination is never longer
    than the text it was given, and is shorter whenever the text holds a
    complete CSI or OSC sequence. *)
Theorem X13_strip_never_lengthens w x :
  (length (stripped w x) <= length x)%nat /\
  (finditer ANSI_OSC_RE x <> [] \/ finditer ANSI_CSI_RE x <> [] ->
   (length (stripped w x) < length x)%nat).
Proof. apply stripped_length. Qed.

(** X14.  The constructor in full.  An argument that is given wins over
    detection; [strip] left out is the negation of [convert].  The
    construction raises exactly when [convert] ends up true where the
    console object exists (the dispatch table asks it for an attribute it
    does not have); in every other case it returns a translator with those
    flags and an empty dispatch table, and has changed nothing. *)
Theorem X14_constructor_outcome convert strip autoreset w :
  let c := default (os_name_nt w && winapi_test w && interactive w) convert in
  AnsiToWin32.__init__ convert strip autoreset w =
    if c && bool_decide (is_Some (winterm w))
    then (Raises (AttributeError "WinTerm" "style"), w)
    else (Returns (translator c (default (negb c) strip) autoreset ∅), w).
Proof. apply init_eq. Qed.

(** ** Two OSC sequences in one text *)

Lemma finditer_from_osc pos pre ps rest :
  contains ESC pre = false ->
  contains BEL ps = false -> contains LF ps = false ->
  finditer_from ANSI_OSC_RE pos 0 (pre ++ OSC ++ ps ++ BEL :: rest) =
    ReMatch (pos + length pre) (pos + length pre + (3 + length ps)) [ps; [BEL]]
    :: finditer_from ANSI_OSC_RE (pos + length pre + (3 + length ps)) 0 rest.
Proof.
  intros Hpre Hb Hl.
  rewrite (finditer_skip_plain _ _ ANSI_OSC_RE_anchored) by assumption.
  pose proof (ANSI_OSC_RE_match ps rest Hb Hl) as E.
  change (OSC ++ ps ++ BEL :: rest) with (ESC :: "]"%char :: ps ++ BEL :: rest) in *.
  rewrite (finditer_from_match _ _ _ _ _ _ E). f_equal.
  replace (3 + length ps - 1)%nat with (length ("]"%char :: ps ++ [BEL])).
  2:{ cbn [length]. rewrite length_app. cbn [length]. lia. }
  replace ("]"%char :: ps ++ BEL :: rest) with (("]"%char :: ps ++ [BEL]) ++ rest).
  2:{ cbn [app]. now rewrite <- app_assoc. }
  rewrite finditer_skip_matched. f_equal.
  cbn [length]. rewrite length_app. cbn [length]. lia.
Qed.

Lemma length_osc (ps : str) : length (OSC ++ ps ++ [BEL]) = (3 + length ps)%nat.
Proof.
  rewrite !length_app. change (length OSC) with 2%nat. cbn [length]. lia.
Qed.

(** X15.  The second of two OSC sequences is cut at the indices it had in
    the text as passed in, although the first has been cut out by then:
    whenever [convert_osc] returns, the text it returns keeps, after the
    plain text before and between the two sequences, as many characters of
    what follows (the second sequence first) as the first sequence was long,
    and has lost that many characters of the text after the second
    sequence. *)
Theorem X15_second_osc_is_cut_by_stale_indices
    self w pre ps1 mid ps2 post text' w' :
  contains ESC pre = false ->
  contains BEL ps1 = false -> contains LF ps1 = false ->
  contains ESC mid = false ->
  contains BEL ps2 = false -> contains LF ps2 = false ->
  contains BEL post = false ->
  AnsiToWin32.convert_osc self
    (pre ++ (OSC ++ ps1 ++ [BEL]) ++ mid ++ (OSC ++ ps2 ++ [BEL]) ++ post) w =
    (Returns text', w') ->
  text' = pre ++ mid
          ++ take (3 + length ps1) ((OSC ++ ps2 ++ [BEL]) ++ post)
          ++ drop (3 + length ps1) post.
Proof.
  intros Hpre Hb1 Hl1 Hmid Hb2 Hl2 Hpost.
  set (osc1 := OSC ++ ps1 ++ [BEL]). set (osc2 := OSC ++ ps2 ++ [BEL]).
  set (text := pre ++ osc1 ++ mid ++ osc2 ++ post).
  assert (Hfind : finditer ANSI_OSC_RE text =
    [ReMatch (length pre) (length pre + (3 + length ps1)) [ps1; [BEL]];
     ReMatch (length pre + (3 + length ps1) + length mid)
       (length pre + (3 + length ps1) + length mid + (3 + length ps2))
       [ps2; [BEL]]]).
  { unfold finditer, text, osc1, osc2.
    replace (pre ++ (OSC ++ ps1 ++ [BEL]) ++ mid ++ (OSC ++ ps2 ++ [BEL]) ++ post)
      with (pre ++ OSC ++ ps1 ++ BEL :: (mid ++ OSC ++ ps2 ++ BEL :: post))
      by (now rewrite <- !app_assoc).
    rewrite finditer_from_osc by assumption. cbn [Nat.add]. f_equal.
    rewrite finditer_from_osc by assumption. f_equal.
    now apply (finditer_no_terminator _ _ ANSI_OSC_RE_anchored). }
  unfold AnsiToWin32.convert_osc. rewrite Hfind. cbn [for_fold]. unfold bind.
  destruct (AnsiToWin32.convert_osc_match text _ w) as [[t1|e] w1] eqn:E1;
    [|discriminate].
  apply convert_osc_match_returns in E1. cbn [m_start m_end] in E1.
  destruct (AnsiToWin32.convert_osc_match t1 _ w1) as [[t2|e] w2] eqn:E2;
    [|discriminate].
  apply convert_osc_match_returns in E2. cbn [m_start m_end] in E2.
  intros [= <- _]. subst t2.
  assert (Ht1 : t1 = pre ++ mid ++ osc2 ++ post).
  { subst t1. unfold text. rewrite take_app_length. f_equal.
    rewrite drop_app_add. rewrite <- (length_osc ps1). fold osc1.
    now rewrite drop_app_length. }
  rewrite Ht1.
  replace (length pre + (3 + length ps1) + length mid)%nat
    with (length pre + (length mid + (3 + length ps1)))%nat by lia.
  rewrite take_app_add, take_app_add.
  replace (length pre + (length mid + (3 + length ps1)) + (3 + length ps2))%nat
    with (length pre + (length mid + (length osc2 + (3 + length ps1))))%nat
    by (unfold osc2; rewrite length_osc; lia).
  rewrite drop_app_add, drop_app_add, drop_app_add.
  now rewrite <- !app_assoc.
Qed.

Lemma X15_second_osc_is_cut_by_stale_indices_witness :
  AnsiToWin32.convert_osc (translator false true false ∅)
    (py "a" ++ (OSC ++ py "1;t" ++ [BEL]) ++ py "b"
     ++ (OSC ++ py "1;u" ++ [BEL]) ++ py "cdefgh") posix_terminal =
    (Returns (py "ab" ++ OSC ++ py "1;u" ++ [BEL]), posix_terminal) /\
  py "ab" ++ OSC ++ py "1;u" ++ [BEL] =
    py "a" ++ py "b"
    ++ take 6 ((OSC ++ py "1;u" ++ [BEL]) ++ py "cdefgh") ++ drop 6 (py "cdefgh").
Proof.
  split; [reflexivity|].
  exact (X15_second_osc_is_cut_by_stale_indices (translator false true false ∅)
           posix_terminal (py "a") (py "1;t") (py "b") (py "1;u") (py "cdefgh")
           _ _ eq_refl eq_refl eq_refl eq_refl eq_refl eq_refl eq_refl eq_refl).
Defined.

(** ** Making the console object *)

